(** * Dashboard store: a shallow embedding of [dashboardStore.ts]

    The Zustand store of the dashboard feature
    ([src/react/src/features/dashboard/stores/dashboardStore.ts]) is
    embedded as pure state-passing functions over a record of the store's
    data fields.  Every action of the store is a call of Zustand's [set],
    which merges a partial object into the current state; the embedding
    keeps that shape: an action computes a list of field assignments and
    [set] merges it. *)

From Stdlib Require Import ZArith QArith Qcanon List Bool.
From stdpp Require Import base numbers list strings pretty gmap.

Local Open Scope string_scope.

(** ** JavaScript numbers

    A TypeScript [number] is an IEEE-754 double.  The store only adds,
    multiplies, divides and compares numbers, so the embedding keeps the
    special values that those operations can produce ([Infinity],
    [-Infinity], [NaN], in particular from a division by zero) and takes the
    arithmetic on finite values to be exact on the rationals: rounding,
    overflow and the sign of zero are abstracted away. *)
Module Js.

Inductive number : Type :=
| Fin (q : Qc)
| PInf
| NInf
| NaN.

Definition of_Z (z : Z) : number := Fin (Qc_of_Z z).
Definition of_Q (q : Q) : number := Fin (Q2Qc q).

#[global] Instance number_eq_dec : EqDecision number.
Proof. solve_decision. Defined.

(** Sign of a number: [Some Lt] negative, [Some Eq] zero, [Some Gt]
    positive, [None] for [NaN]. *)
Definition sign (x : number) : option comparison :=
  match x with
  | Fin q => Some (q ?= 0)%Qc
  | PInf => Some Gt
  | NInf => Some Lt
  | NaN => None
  end.

Definition inf_of (c : comparison) : number :=
  match c with Lt => NInf | Eq => NaN | Gt => PInf end.

Definition sign_mul (c d : comparison) : comparison :=
  match c, d with
  | Eq, _ | _, Eq => Eq
  | Lt, Lt | Gt, Gt => Gt
  | _, _ => Lt
  end.

(** [x + y] *)
Definition add (x y : number) : number :=
  match x, y with
  | NaN, _ | _, NaN => NaN
  | Fin a, Fin b => Fin (a + b)
  | PInf, NInf | NInf, PInf => NaN
  | PInf, _ | _, PInf => PInf
  | NInf, _ | _, NInf => NInf
  end.

(** [x * y]: an infinity times zero is [NaN]. *)
Definition mul (x y : number) : number :=
  match x, y with
  | Fin a, Fin b => Fin (a * b)
  | _, _ =>
      match sign x, sign y with
      | Some c, Some d => inf_of (sign_mul c d)
      | _, _ => NaN
      end
  end.

(** [x / y]: a finite non-zero number over zero is an infinity of its
    sign, [0 / 0] and [Infinity / Infinity] are [NaN], a finite number over
    an infinity is zero. *)
Definition div (x y : number) : number :=
  match x, y with
  | NaN, _ | _, NaN => NaN
  | Fin a, Fin b =>
      if decide (b = 0)%Qc then inf_of (a ?= 0)%Qc else Fin (a / b)
  | Fin _, _ => Fin 0
  | _, Fin b =>
      match sign x with
      | Some c => inf_of (sign_mul c (if decide (b = 0)%Qc then Gt else (b ?= 0)%Qc))
      | None => NaN
      end
  | _, _ => NaN
  end.

(** Three-way comparison of two numbers, [None] when either is [NaN]. *)
Definition compare (x y : number) : option comparison :=
  match x, y with
  | NaN, _ | _, NaN => None
  | Fin a, Fin b => Some (a ?= b)%Qc
  | PInf, PInf | NInf, NInf => Some Eq
  | PInf, _ | _, NInf => Some Gt
  | NInf, _ | _, PInf => Some Lt
  end.

(** [x >= y], [x <= y], [x < y], [x > y]: all false on [NaN]. *)
Definition geb (x y : number) : bool :=
  match compare x y with Some (Gt | Eq) => true | _ => false end.
Definition leb (x y : number) : bool :=
  match compare x y with Some (Lt | Eq) => true | _ => false end.
Definition ltb (x y : number) : bool :=
  match compare x y with Some Lt => true | _ => false end.
Definition gtb (x y : number) : bool :=
  match compare x y with Some Gt => true | _ => false end.

(** [Math.min(x, y)] and [Math.max(x, y)]: [NaN] when either argument
    is. *)
Definition min (x y : number) : number :=
  match compare x y with
  | None => NaN
  | Some Gt => y
  | Some _ => x
  end.
Definition max (x y : number) : number :=
  match compare x y with
  | None => NaN
  | Some Lt => y
  | Some _ => x
  end.

End Js.

Abbreviation number := Js.number.
Coercion Js.of_Z : Z >-> Js.number.

(** ** Data model ([features/dashboard/types] and [shared/types])

    One record per TypeScript interface, in a module of the interface's
    name so that the fields keep their source names; an optional field
    [f?: T] is an [option T], a union of string literals is an enumeration. *)

(** An ISO-8601 date string.  The mock data computes some of them when the
    module is loaded, as [new Date(Date.now() + ms).toISOString()]; those
    are kept symbolic as [SinceLoad ms]. *)
Inductive isoString : Type :=
| Iso (s : string)
| SinceLoad (ms : Z).

Inductive RankTier : Type :=
| bronze | silver | gold | platinum | diamond | master | legend.

Module UserRank.
Record t : Type := mk {
  id : string;
  name : string;
  tier : RankTier;
  icon : string;
  color : string;
  minXP : number;
}.
End UserRank.

Module UserStats.
Record t : Type := mk {
  level : number;
  currentXP : number;
  requiredXP : number;
  totalXP : number;
  coins : number;
  gems : number;
  rank : UserRank.t;
  rankPosition : number;
  streakDays : number;
  achievementCount : number;
  questsCompleted : number;
  attendanceRate : number;
}.
End UserStats.

Module DashboardAvatar.
Record t : Type := mk {
  url : string;
  frameId : option string;
  frameColor : option string;
  isAnimated : option bool;
}.
End DashboardAvatar.

Module DashboardClan.
Record t : Type := mk {
  id : string;
  name : string;
  emblem : string;
  color : string;
}.
End DashboardClan.

Module DashboardUser.
Record t : Type := mk {
  id : string;
  studentId : string;
  displayName : string;
  firstName : string;
  lastName : string;
  email : string;
  avatar : DashboardAvatar.t;
  stats : UserStats.t;
  title : option string;
  clan : option DashboardClan.t;
}.
End DashboardUser.

Inductive QuestType : Type :=
| main | side | daily | weekly | event | achievement.

Inductive QuestCategory : Type :=
| qc_academic | qc_attendance | qc_social | qc_club | qc_wellness | qc_special.

Inductive QuestDifficulty : Type := easy | medium | hard | legendary.

Inductive QuestStatus : Type :=
| locked | available | in_progress | completed | claimed | expired.

#[global] Instance QuestStatus_eq_dec : EqDecision QuestStatus.
Proof. solve_decision. Defined.

Inductive ItemType : Type :=
| avatar_frame | it_badge | it_title | theme | powerup | cosmetic.

Inductive ItemRarity : Type :=
| common | uncommon | rare | epic | ir_legendary.

Inductive BadgeCategory : Type :=
| bc_academic | bc_social | bc_attendance | bc_special | bc_event | bc_milestone.

Module RewardItem.
Record t : Type := mk {
  id : string;
  name : string;
  type : ItemType;
  rarity : ItemRarity;
  icon : string;
  quantity : number;
}.
End RewardItem.

Module Badge.
Record t : Type := mk {
  id : string;
  name : string;
  description : string;
  icon : string;
  rarity : ItemRarity;
  category : BadgeCategory;
  unlockedAt : option string;
  isNew : option bool;
}.
End Badge.

Module QuestRewards.
Record t : Type := mk {
  xp : number;
  coins : number;
  gems : option number;
  items : option (list RewardItem.t);
  badge : option Badge.t;
}.
End QuestRewards.

(** [Partial<QuestRewards>], the reward of a milestone. *)
Module PartialQuestRewards.
Record t : Type := mk {
  xp : option number;
  coins : option number;
  gems : option number;
  items : option (list RewardItem.t);
  badge : option Badge.t;
}.
End PartialQuestRewards.

Module QuestMilestone.
Record t : Type := mk {
  id : string;
  name : string;
  target : number;
  reward : PartialQuestRewards.t;
  isCompleted : bool;
}.
End QuestMilestone.

Module QuestProgress.
Record t : Type := mk {
  current : number;
  target : number;
  percentage : number;
  milestones : option (list QuestMilestone.t);
}.
End QuestProgress.

Module DashboardQuest.
Record t : Type := mk {
  id : string;
  title : string;
  type : QuestType;
  category : QuestCategory;
  difficulty : QuestDifficulty;
  status : QuestStatus;
  progress : QuestProgress.t;
  rewards : QuestRewards.t;
  deadline : option isoString;
  icon : string;
  color : string;
  isExpiringSoon : option bool;
  timeRemaining : option string;
}.
End DashboardQuest.

Inductive DashboardActivityType : Type :=
| quest_completed | badge_earned | level_up | attendance_marked
| streak_achieved | reward_claimed | event_joined.

Module DashboardActivity.
(** [metadata?: Record<string, unknown>]: the values are kept as text. *)
Record t : Type := mk {
  id : string;
  type : DashboardActivityType;
  title : string;
  description : string;
  timestamp : isoString;
  icon : string;
  iconColor : string;
  xpGained : option number;
  coinsGained : option number;
  metadata : option (gmap string string);
}.
End DashboardActivity.

Module UpcomingClass.
Record t : Type := mk {
  id : string;
  courseName : string;
  courseCode : string;
  instructor : string;
  room : string;
  startTime : string;
  endTime : string;
  color : string;
  isNext : option bool;
  isOngoing : option bool;
  startsIn : option string;
}.
End UpcomingClass.

Module LeaderboardEntry.
Record t : Type := mk {
  rank : number;
  userId : string;
  displayName : string;
  avatar : string;
  level : number;
  xp : number;
  change : option number;
  isCurrentUser : option bool;
}.
End LeaderboardEntry.

Module BadgeProgress.
Record t : Type := mk {
  current : number;
  target : number;
}.
End BadgeProgress.

(** [FeaturedBadge extends Badge]. *)
Module FeaturedBadge.
Record t : Type := mk {
  id : string;
  name : string;
  description : string;
  icon : string;
  rarity : ItemRarity;
  category : BadgeCategory;
  unlockedAt : option string;
  isNew : option bool;
  progress : option BadgeProgress.t;
  isLocked : option bool;
  hint : option string;
}.
End FeaturedBadge.

Module WeeklyComparison.
Record t : Type := mk {
  xp : number;
  quests : number;
  attendance : number;
}.
End WeeklyComparison.

Module WeeklyStats.
Record t : Type := mk {
  xpEarned : number;
  questsCompleted : number;
  attendanceRate : number;
  streakDays : number;
  comparedToLastWeek : WeeklyComparison.t;
}.
End WeeklyStats.

(** [DashboardFilters] has two optional keys, [questType] and [timeRange].
    A filters object, and the [Partial<DashboardFilters>] passed to
    [setFilters], is a JavaScript object used as a map from its own keys to
    their values; a key may be present and hold [undefined]. *)
Inductive TimeRange : Type := today | week | month.

Inductive FilterValue : Type :=
| Undefined
| OfQuestType (t : QuestType)
| OfTimeRange (r : TimeRange).

Abbreviation DashboardFilters := (gmap string FilterValue).

(** ** Mock data ([features/dashboard/api/mockData])

    The constants the store loads.  They are module-level objects: each
    load puts the same objects into the state.  Two descriptions quote a
    name with double quotes in the source; the quotes are single here. *)
Module MockData.
Local Open Scope Z_scope.

Definition mockUserRank : UserRank.t := {|
  UserRank.id := "rank_gold_2";
  UserRank.name := "Gold Scholar";
  UserRank.tier := gold;
  UserRank.icon := "üèÜ";
  UserRank.color := "#fbbf24";
  UserRank.minXP := 5000;
|}.

Definition mockUserStats : UserStats.t := {|
  UserStats.level := 24;
  UserStats.currentXP := 2450;
  UserStats.requiredXP := 3000;
  UserStats.totalXP := 24450;
  UserStats.coins := 1850;
  UserStats.gems := 45;
  UserStats.rank := mockUserRank;
  UserStats.rankPosition := 127;
  UserStats.streakDays := 12;
  UserStats.achievementCount := 34;
  UserStats.questsCompleted := 156;
  UserStats.attendanceRate := Js.of_Q (189 # 2);
|}.

Definition mockUser : DashboardUser.t := {|
  DashboardUser.id := "user_001";
  DashboardUser.studentId := "STU2024001";
  DashboardUser.displayName := "Alex Chen";
  DashboardUser.firstName := "Alex";
  DashboardUser.lastName := "Chen";
  DashboardUser.email := "alex.chen@university.edu";
  DashboardUser.avatar := {|
    DashboardAvatar.url :=
      "https://api.dicebear.com/7.x/avataaars/svg?seed=Alex&backgroundColor=6366f1";
    DashboardAvatar.frameId := Some "frame_gold";
    DashboardAvatar.frameColor := Some "#fbbf24";
    DashboardAvatar.isAnimated := Some false;
  |};
  DashboardUser.stats := mockUserStats;
  DashboardUser.title := Some "Code Warrior";
  DashboardUser.clan := Some {|
    DashboardClan.id := "clan_001";
    DashboardClan.name := "Binary Dragons";
    DashboardClan.emblem := "üêâ";
    DashboardClan.color := "#8b5cf6";
  |};
|}.

(** A quest literal of the mock data: no milestones, no reward items and
    no reward badge. *)
Definition quest (id title : string) (type : QuestType)
    (category : QuestCategory) (difficulty : QuestDifficulty)
    (status : QuestStatus) (current target percentage : number)
    (xp coins : number) (gems : option number) (deadline : option isoString)
    (icon color : string) (isExpiringSoon : option bool)
    (timeRemaining : option string) : DashboardQuest.t := {|
  DashboardQuest.id := id;
  DashboardQuest.title := title;
  DashboardQuest.type := type;
  DashboardQuest.category := category;
  DashboardQuest.difficulty := difficulty;
  DashboardQuest.status := status;
  DashboardQuest.progress := {|
    QuestProgress.current := current;
    QuestProgress.target := target;
    QuestProgress.percentage := percentage;
    QuestProgress.milestones := None;
  |};
  DashboardQuest.rewards := {|
    QuestRewards.xp := xp;
    QuestRewards.coins := coins;
    QuestRewards.gems := gems;
    QuestRewards.items := None;
    QuestRewards.badge := None;
  |};
  DashboardQuest.deadline := deadline;
  DashboardQuest.icon := icon;
  DashboardQuest.color := color;
  DashboardQuest.isExpiringSoon := isExpiringSoon;
  DashboardQuest.timeRemaining := timeRemaining;
|}.

Definition mockActiveQuests : list DashboardQuest.t := [
  quest "quest_001" "Perfect Attendance Week" weekly qc_attendance medium
    in_progress 4 5 80 500 200 None
    (Some (SinceLoad (3 * 24 * 60 * 60 * 1000)))
    "CalendarCheck" "#10b981" (Some false) (Some "3 days left");
  quest "quest_002" "Knowledge Seeker" main qc_academic hard
    in_progress 7 10 70 1000 500 (Some (Js.of_Z 10))
    (Some (SinceLoad (7 * 24 * 60 * 60 * 1000)))
    "BookOpen" "#6366f1" None (Some "7 days left");
  quest "quest_003" "Social Butterfly" side qc_social easy
    in_progress 2 3 66 150 75 None
    None
    "Users" "#a855f7" None (Some "No deadline");
  quest "quest_004" "Early Bird" daily qc_attendance easy
    in_progress 0 1 0 100 50 None
    (Some (SinceLoad (8 * 60 * 60 * 1000)))
    "Sunrise" "#f59e0b" (Some true) (Some "8 hours left");
  quest "quest_005" "Club Champion" event qc_club legendary
    in_progress 1 5 20 2000 1000 (Some (Js.of_Z 25))
    (Some (SinceLoad (14 * 24 * 60 * 60 * 1000)))
    "Flag" "#ec4899" None (Some "2 weeks left")
].

Definition activity (id : string) (type : DashboardActivityType)
    (title description : string) (timestamp : isoString)
    (icon iconColor : string) (xpGained coinsGained : option number)
    : DashboardActivity.t := {|
  DashboardActivity.id := id;
  DashboardActivity.type := type;
  DashboardActivity.title := title;
  DashboardActivity.description := description;
  DashboardActivity.timestamp := timestamp;
  DashboardActivity.icon := icon;
  DashboardActivity.iconColor := iconColor;
  DashboardActivity.xpGained := xpGained;
  DashboardActivity.coinsGained := coinsGained;
  DashboardActivity.metadata := None;
|}.

Definition mockActivities : list DashboardActivity.t := [
  activity "activity_001" quest_completed "Quest Completed!"
    "Completed 'Morning Warrior' daily quest"
    (SinceLoad (- (2 * 60 * 60 * 1000)))
    "CheckCircle" "#10b981" (Some (Js.of_Z 100)) (Some (Js.of_Z 50));
  activity "activity_002" attendance_marked "Attendance Recorded"
    "Checked in to CS301 - Database Systems"
    (SinceLoad (- (4 * 60 * 60 * 1000)))
    "MapPin" "#6366f1" (Some (Js.of_Z 50)) None;
  activity "activity_003" badge_earned "New Badge Unlocked!"
    "Earned 'Punctual Pioneer' badge"
    (SinceLoad (- (24 * 60 * 60 * 1000)))
    "Award" "#f59e0b" (Some (Js.of_Z 200)) None;
  activity "activity_004" streak_achieved "10-Day Streak!"
    "You've attended classes for 10 days in a row"
    (SinceLoad (- (2 * 24 * 60 * 60 * 1000)))
    "Flame" "#ef4444" (Some (Js.of_Z 500)) (Some (Js.of_Z 200));
  activity "activity_005" level_up "Level Up!"
    "Reached Level 24 - Code Warrior"
    (SinceLoad (- (3 * 24 * 60 * 60 * 1000)))
    "TrendingUp" "#a855f7" (Some (Js.of_Z 0)) (Some (Js.of_Z 100))
].

Definition class (id courseName courseCode instructor room : string)
    (startTime endTime color : string) (isNext : option bool)
    (startsIn : option string) : UpcomingClass.t := {|
  UpcomingClass.id := id;
  UpcomingClass.courseName := courseName;
  UpcomingClass.courseCode := courseCode;
  UpcomingClass.instructor := instructor;
  UpcomingClass.room := room;
  UpcomingClass.startTime := startTime;
  UpcomingClass.endTime := endTime;
  UpcomingClass.color := color;
  UpcomingClass.isNext := isNext;
  UpcomingClass.isOngoing := None;
  UpcomingClass.startsIn := startsIn;
|}.

Definition mockUpcomingClasses : list UpcomingClass.t := [
  class "class_001" "Database Systems" "CS301" "Dr. Sarah Johnson" "Room 405"
    "09:00" "10:30" "#6366f1" (Some true) (Some "45 minutes");
  class "class_002" "Software Engineering" "CS302" "Prof. Michael Lee" "Lab 201"
    "11:00" "12:30" "#10b981" None (Some "2 hours");
  class "class_003" "Machine Learning" "CS401" "Dr. Emily Zhang" "Room 301"
    "14:00" "15:30" "#a855f7" None (Some "5 hours");
  class "class_004" "Computer Networks" "CS305" "Dr. James Wilson" "Room 502"
    "16:00" "17:30" "#f59e0b" None (Some "7 hours")
].

Definition mockLeaderboard : list LeaderboardEntry.t := [
  LeaderboardEntry.mk 1 "user_top1" "Emma Watson"
    "https://api.dicebear.com/7.x/avataaars/svg?seed=Emma&backgroundColor=ec4899"
    42 85420 (Some (Js.of_Z 0)) None;
  LeaderboardEntry.mk 2 "user_top2" "James Liu"
    "https://api.dicebear.com/7.x/avataaars/svg?seed=James&backgroundColor=10b981"
    40 78650 (Some (Js.of_Z 2)) None;
  LeaderboardEntry.mk 3 "user_top3" "Sofia Garcia"
    "https://api.dicebear.com/7.x/avataaars/svg?seed=Sofia&backgroundColor=f59e0b"
    39 75200 (Some (Js.of_Z (-1))) None;
  LeaderboardEntry.mk 127 "user_001" "Alex Chen"
    "https://api.dicebear.com/7.x/avataaars/svg?seed=Alex&backgroundColor=6366f1"
    24 24450 (Some (Js.of_Z 5)) (Some true)
].

Definition badge (id name description icon : string) (rarity : ItemRarity)
    (category : BadgeCategory) (progress : option BadgeProgress.t)
    (isLocked : option bool) (hint : option string) : FeaturedBadge.t := {|
  FeaturedBadge.id := id;
  FeaturedBadge.name := name;
  FeaturedBadge.description := description;
  FeaturedBadge.icon := icon;
  FeaturedBadge.rarity := rarity;
  FeaturedBadge.category := category;
  FeaturedBadge.unlockedAt := None;
  FeaturedBadge.isNew := None;
  FeaturedBadge.progress := progress;
  FeaturedBadge.isLocked := isLocked;
  FeaturedBadge.hint := hint;
|}.

Definition mockFeaturedBadges : list FeaturedBadge.t := [
  badge "badge_001" "Perfect Month" "Attend all classes for an entire month"
    "üéØ" ir_legendary bc_attendance (Some (BadgeProgress.mk 18 22))
    (Some false) (Some "4 more classes to go!");
  badge "badge_002" "Quest Master" "Complete 200 quests"
    "‚öîÔ∏è" epic bc_milestone (Some (BadgeProgress.mk 156 200))
    (Some false) None;
  badge "badge_003" "Social Legend" "Participate in 50 club events"
    "üë•" rare bc_social (Some (BadgeProgress.mk 23 50))
    (Some false) None;
  badge "badge_004" "Diamond Scholar" "Reach Diamond rank"
    "üíé" ir_legendary bc_milestone None
    (Some true) (Some "Reach 50,000 XP to unlock")
].

Definition mockWeeklyStats : WeeklyStats.t := {|
  WeeklyStats.xpEarned := 2450;
  WeeklyStats.questsCompleted := 12;
  WeeklyStats.attendanceRate := 100;
  WeeklyStats.streakDays := 5;
  WeeklyStats.comparedToLastWeek := WeeklyComparison.mk 15 3 5;
|}.

End MockData.

(** ** Store state ([interface DashboardState], data fields) *)

Record DashboardState : Type := mkState {
  user : option DashboardUser.t;
  activeQuests : list DashboardQuest.t;
  activities : list DashboardActivity.t;
  upcomingClasses : list UpcomingClass.t;
  leaderboard : list LeaderboardEntry.t;
  featuredBadges : list FeaturedBadge.t;
  weeklyStats : option WeeklyStats.t;
  isLoading : bool;
  isRefreshing : bool;
  error : option string;
  filters : DashboardFilters;
  showCompletedQuests : bool;
  activityLimit : number;
  pendingXPGain : number;
  pendingCoinsGain : number;
}.

Definition initialState : DashboardState := {|
  user := None;
  activeQuests := [];
  activities := [];
  upcomingClasses := [];
  leaderboard := [];
  featuredBadges := [];
  weeklyStats := None;
  isLoading := false;
  isRefreshing := false;
  error := None;
  filters := ∅;
  showCompletedQuests := false;
  activityLimit := 5%Z;
  pendingXPGain := 0%Z;
  pendingCoinsGain := 0%Z;
|}.

(** ** Zustand's [set]

    [set(partial, false, label)] merges the keys of [partial] into the
    state and leaves every other key as it is ([replace] is [false] at
    every call of this store; the label only names the update for the
    devtools).  A partial object is the list of its [key: value] entries. *)
Module Key.
Inductive entry : Type :=
| user (v : option DashboardUser.t)
| activeQuests (v : list DashboardQuest.t)
| activities (v : list DashboardActivity.t)
| upcomingClasses (v : list UpcomingClass.t)
| leaderboard (v : list LeaderboardEntry.t)
| featuredBadges (v : list FeaturedBadge.t)
| weeklyStats (v : option WeeklyStats.t)
| isLoading (v : bool)
| isRefreshing (v : bool)
| error (v : option string)
| filters (v : DashboardFilters)
| showCompletedQuests (v : bool)
| activityLimit (v : number)
| pendingXPGain (v : number)
| pendingCoinsGain (v : number).
End Key.

Abbreviation PartialState := (list Key.entry).

Definition assign (s : DashboardState) (e : Key.entry) : DashboardState :=
  let 'mkState u q a c l b w ld rf er f sc al px pc := s in
  match e with
  | Key.user v => mkState v q a c l b w ld rf er f sc al px pc
  | Key.activeQuests v => mkState u v a c l b w ld rf er f sc al px pc
  | Key.activities v => mkState u q v c l b w ld rf er f sc al px pc
  | Key.upcomingClasses v => mkState u q a v l b w ld rf er f sc al px pc
  | Key.leaderboard v => mkState u q a c v b w ld rf er f sc al px pc
  | Key.featuredBadges v => mkState u q a c l v w ld rf er f sc al px pc
  | Key.weeklyStats v => mkState u q a c l b v ld rf er f sc al px pc
  | Key.isLoading v => mkState u q a c l b w v rf er f sc al px pc
  | Key.isRefreshing v => mkState u q a c l b w ld v er f sc al px pc
  | Key.error v => mkState u q a c l b w ld rf v f sc al px pc
  | Key.filters v => mkState u q a c l b w ld rf er v sc al px pc
  | Key.showCompletedQuests v => mkState u q a c l b w ld rf er f v al px pc
  | Key.activityLimit v => mkState u q a c l b w ld rf er f sc v px pc
  | Key.pendingXPGain v => mkState u q a c l b w ld rf er f sc al v pc
  | Key.pendingCoinsGain v => mkState u q a c l b w ld rf er f sc al px v
  end.

(** [set(partial)]: one state update that writes every key of [partial]. *)
Definition set (partial : PartialState) (s : DashboardState) : DashboardState :=
  fold_left assign partial s.

(** [set((state) => partial)]: the partial object is computed from the
    current state. *)
Definition set_with (f : DashboardState -> PartialState) (s : DashboardState)
    : DashboardState :=
  set (f s) s.

(** ** Actions *)

(** *** Setters *)
Definition setUser (user : option DashboardUser.t) := set [Key.user user].
Definition setActiveQuests (activeQuests : list DashboardQuest.t) :=
  set [Key.activeQuests activeQuests].
Definition setActivities (activities : list DashboardActivity.t) :=
  set [Key.activities activities].
Definition setUpcomingClasses (upcomingClasses : list UpcomingClass.t) :=
  set [Key.upcomingClasses upcomingClasses].
Definition setLeaderboard (leaderboard : list LeaderboardEntry.t) :=
  set [Key.leaderboard leaderboard].
Definition setFeaturedBadges (featuredBadges : list FeaturedBadge.t) :=
  set [Key.featuredBadges featuredBadges].
Definition setWeeklyStats (weeklyStats : option WeeklyStats.t) :=
  set [Key.weeklyStats weeklyStats].

(** *** Loading and error handlers *)
Definition setLoading (isLoading : bool) := set [Key.isLoading isLoading].
Definition setRefreshing (isRefreshing : bool) :=
  set [Key.isRefreshing isRefreshing].
Definition setError (error : option string) := set [Key.error error].

(** *** Filters and preferences *)

(** [{ ...state.filters, ...newFilters }]: the keys of [newFilters] win,
    the other keys of [state.filters] are kept. *)
Definition setFilters (newFilters : DashboardFilters) :=
  set_with (fun state => [Key.filters (newFilters ∪ state.(filters))]).

Definition toggleShowCompletedQuests :=
  set_with (fun state =>
    [Key.showCompletedQuests (negb state.(showCompletedQuests))]).

Definition setActivityLimit (activityLimit : number) :=
  set [Key.activityLimit activityLimit].

(** *** Data fetching

    An [async] action runs up to its [await] when it is called, and the
    rest when the awaited promise settles.  The two parts are embedded
    separately; the second takes the way the promise settled.  What runs
    after the [await] can throw, so it is a computation over the state that
    ends normally or with the value thrown. *)

(** What a [catch (error)] clause can receive. *)
Inductive thrown : Type :=
| ErrorObject (message : string)   (* [error instanceof Error] *)
| OtherValue.

Inductive settled : Type :=
| Fulfilled
| Rejected (reason : thrown).

Definition Action (A : Type) : Type :=
  DashboardState -> (A + thrown) * DashboardState.

Definition ret {A} (a : A) : Action A := fun s => (inl a, s).

Definition bind {A B} (m : Action A) (k : A -> Action B) : Action B :=
  fun s =>
    match m s with
    | (inl a, s') => k a s'
    | (inr e, s') => (inr e, s')
    end.

Notation "m ;; k" := (bind m (fun _ => k))
  (at level 100, k at level 200, right associativity).

(** A store update as a step of an action: it does not throw. *)
Definition update (f : DashboardState -> DashboardState) : Action unit :=
  fun s => (inl tt, f s).

(** [await promise]: goes on when the promise is fulfilled, throws its
    reason when it is rejected. *)
Definition await (promise : settled) : Action unit :=
  fun s =>
    match promise with
    | Fulfilled => (inl tt, s)
    | Rejected reason => (inr reason, s)
    end.

(** [try { body } catch (error) { handler }] *)
Definition try_catch {A} (body : Action A) (handler : thrown -> Action A)
    : Action A :=
  fun s =>
    match body s with
    | (inl a, s') => (inl a, s')
    | (inr error, s') => handler error s'
    end.

(** [error instanceof Error ? error.message : fallback] *)
Definition errorMessage (error : thrown) (fallback : string) : string :=
  match error with
  | ErrorObject message => message
  | OtherValue => fallback
  end.

(** [fetchDashboardData], from the call to the [await]. *)
Definition fetchDashboardData_call (s : DashboardState) : DashboardState :=
  setError None (setLoading true s).

(** [fetchDashboardData], the [try] statement from the [await] on; [load]
    is how the awaited load settles. *)
Definition fetchDashboardData_try (load : settled) : Action unit :=
  try_catch
    (await load ;;
     update (set [ Key.user (Some MockData.mockUser);
                   Key.activeQuests MockData.mockActiveQuests;
                   Key.activities MockData.mockActivities;
                   Key.upcomingClasses MockData.mockUpcomingClasses;
                   Key.leaderboard MockData.mockLeaderboard;
                   Key.featuredBadges MockData.mockFeaturedBadges;
                   Key.weeklyStats (Some MockData.mockWeeklyStats);
                   Key.isLoading false ]))
    (fun error =>
       let errorMessage := errorMessage error "Failed to fetch dashboard data" in
       update (set [ Key.error (Some errorMessage); Key.isLoading false ])).

(** The state that [fetchDashboardData] leaves once the load has settled. *)
Definition fetchDashboardData_resume (load : settled) (s : DashboardState)
    : DashboardState :=
  (fetchDashboardData_try load s).2.

(** A whole [fetchDashboardData()] with nothing running in between: the
    way the call ends for its caller, and the state it leaves. *)
Definition fetchDashboardData_outcome (load : settled) (s : DashboardState)
    : (unit + thrown) * DashboardState :=
  fetchDashboardData_try load (fetchDashboardData_call s).

Definition fetchDashboardData (load : settled) (s : DashboardState) : DashboardState :=
  (fetchDashboardData_outcome load s).2.

(** [{ ...mockUser.stats, currentXP: mockUser.stats.currentXP + bonus }],
    where [bonus] is what [Math.floor(Math.random() * 50)] returned. *)
Definition updatedStats (bonus : number) : UserStats.t :=
  let stats := MockData.mockUser.(DashboardUser.stats) in
  {| UserStats.level := stats.(UserStats.level);
     UserStats.currentXP := Js.add stats.(UserStats.currentXP) bonus;
     UserStats.requiredXP := stats.(UserStats.requiredXP);
     UserStats.totalXP := stats.(UserStats.totalXP);
     UserStats.coins := stats.(UserStats.coins);
     UserStats.gems := stats.(UserStats.gems);
     UserStats.rank := stats.(UserStats.rank);
     UserStats.rankPosition := stats.(UserStats.rankPosition);
     UserStats.streakDays := stats.(UserStats.streakDays);
     UserStats.achievementCount := stats.(UserStats.achievementCount);
     UserStats.questsCompleted := stats.(UserStats.questsCompleted);
     UserStats.attendanceRate := stats.(UserStats.attendanceRate) |}.

(** [{ ...mockUser, stats: updatedStats }] *)
Definition refreshedUser (bonus : number) : DashboardUser.t :=
  let u := MockData.mockUser in
  {| DashboardUser.id := u.(DashboardUser.id);
     DashboardUser.studentId := u.(DashboardUser.studentId);
     DashboardUser.displayName := u.(DashboardUser.displayName);
     DashboardUser.firstName := u.(DashboardUser.firstName);
     DashboardUser.lastName := u.(DashboardUser.lastName);
     DashboardUser.email := u.(DashboardUser.email);
     DashboardUser.avatar := u.(DashboardUser.avatar);
     DashboardUser.stats := updatedStats bonus;
     DashboardUser.title := u.(DashboardUser.title);
     DashboardUser.clan := u.(DashboardUser.clan) |}.

(** [refreshDashboard], from the call to the [await]. *)
Definition refreshDashboard_call (s : DashboardState) : DashboardState :=
  setError None (setRefreshing true s).

(** [refreshDashboard], the [try] statement from the [await] on. *)
Definition refreshDashboard_try (load : settled) (bonus : number) : Action unit :=
  try_catch
    (await load ;;
     update (set [ Key.user (Some (refreshedUser bonus));
                   Key.activeQuests MockData.mockActiveQuests;
                   Key.activities MockData.mockActivities;
                   Key.upcomingClasses MockData.mockUpcomingClasses;
                   Key.isRefreshing false ]))
    (fun error =>
       let errorMessage := errorMessage error "Failed to refresh dashboard" in
       update (set [ Key.error (Some errorMessage); Key.isRefreshing false ])).

Definition refreshDashboard_resume (load : settled) (bonus : number)
    (s : DashboardState) : DashboardState :=
  (refreshDashboard_try load bonus s).2.

Definition refreshDashboard (load : settled) (bonus : number) (s : DashboardState)
    : DashboardState :=
  refreshDashboard_resume load bonus (refreshDashboard_call s).

(** *** Quest operations *)

(** The object literal of [updateQuestProgress]:
    [{ ...quest, progress: { ...quest.progress, current: progress,
    percentage: Math.min((progress / quest.progress.target) * 100, 100) },
    status: progress >= quest.progress.target ? 'completed' : quest.status }]. *)
Definition withProgress (progress : number) (quest : DashboardQuest.t)
    : DashboardQuest.t :=
  let old := quest.(DashboardQuest.progress) in
  {| DashboardQuest.id := quest.(DashboardQuest.id);
     DashboardQuest.title := quest.(DashboardQuest.title);
     DashboardQuest.type := quest.(DashboardQuest.type);
     DashboardQuest.category := quest.(DashboardQuest.category);
     DashboardQuest.difficulty := quest.(DashboardQuest.difficulty);
     DashboardQuest.status :=
       if Js.geb progress old.(QuestProgress.target)
       then completed
       else quest.(DashboardQuest.status);
     DashboardQuest.progress :=
       {| QuestProgress.current := progress;
          QuestProgress.target := old.(QuestProgress.target);
          QuestProgress.percentage :=
            Js.min
              (Js.mul (Js.div progress old.(QuestProgress.target)) 100%Z)
              100%Z;
          QuestProgress.milestones := old.(QuestProgress.milestones) |};
     DashboardQuest.rewards := quest.(DashboardQuest.rewards);
     DashboardQuest.deadline := quest.(DashboardQuest.deadline);
     DashboardQuest.icon := quest.(DashboardQuest.icon);
     DashboardQuest.color := quest.(DashboardQuest.color);
     DashboardQuest.isExpiringSoon := quest.(DashboardQuest.isExpiringSoon);
     DashboardQuest.timeRemaining := quest.(DashboardQuest.timeRemaining) |}.

(** The callback of [state.activeQuests.map] in [updateQuestProgress]:
    [quest.id === questId ? { ... } : quest].  A quest whose id is [questId]
    is replaced by a new object, any other quest is returned as it is. *)
Definition updateQuest (questId : string) (progress : number)
    (quest : DashboardQuest.t) : DashboardQuest.t :=
  if String.eqb quest.(DashboardQuest.id) questId
  then withProgress progress quest
  else quest.

Definition updateQuestProgress (questId : string) (progress : number) :=
  set_with (fun state =>
    [Key.activeQuests (map (updateQuest questId progress) state.(activeQuests))]).

(** *** Activity operations *)

(** [[activity, ...state.activities].slice(0, 20)] *)
Definition addActivity (activity : DashboardActivity.t) :=
  set_with (fun state =>
    [Key.activities (take 20 (activity :: state.(activities)))]).

(** *** Pending rewards *)
Definition addPendingXP (amount : number) :=
  set_with (fun state =>
    [Key.pendingXPGain (Js.add state.(pendingXPGain) amount)]).

Definition addPendingCoins (amount : number) :=
  set_with (fun state =>
    [Key.pendingCoinsGain (Js.add state.(pendingCoinsGain) amount)]).

Definition clearPendingRewards :=
  set [Key.pendingXPGain 0%Z; Key.pendingCoinsGain 0%Z].

(** *** Reset: [set(initialState)] writes every key of [initialState]. *)
Definition resetStore :=
  set [ Key.user initialState.(user);
        Key.activeQuests initialState.(activeQuests);
        Key.activities initialState.(activities);
        Key.upcomingClasses initialState.(upcomingClasses);
        Key.leaderboard initialState.(leaderboard);
        Key.featuredBadges initialState.(featuredBadges);
        Key.weeklyStats initialState.(weeklyStats);
        Key.isLoading initialState.(isLoading);
        Key.isRefreshing initialState.(isRefreshing);
        Key.error initialState.(error);
        Key.filters initialState.(filters);
        Key.showCompletedQuests initialState.(showCompletedQuests);
        Key.activityLimit initialState.(activityLimit);
        Key.pendingXPGain initialState.(pendingXPGain);
        Key.pendingCoinsGain initialState.(pendingCoinsGain) ].

(** ** Timers and the order in which loads settle

    Both loads wait on [setTimeout]: 800 ms for [fetchDashboardData], 500 ms
    for [refreshDashboard].  JavaScript runs one callback at a time, so an
    application run is a clock, the store, and the timers that are
    pending, each with the rest of the action that waits on it. *)

Inductive continuation : Type :=
| ResumeFetch
| ResumeRefresh (bonus : number).

Record Loop : Type := mkLoop {
  clock : Z;
  store : DashboardState;
  timers : list (Z * continuation);
}.

(** [setTimeout]: timers are kept by due time, and in the order they were
    set when they are due together. *)
Fixpoint schedule (due : Z) (k : continuation) (ts : list (Z * continuation))
    : list (Z * continuation) :=
  match ts with
  | [] => [(due, k)]
  | (d, k') :: rest =>
      if (d <=? due)%Z then (d, k') :: schedule due k rest
      else (due, k) :: ts
  end.

(** The timer promises are always fulfilled. *)
Definition resume (k : continuation) : DashboardState -> DashboardState :=
  match k with
  | ResumeFetch => fetchDashboardData_resume Fulfilled
  | ResumeRefresh bonus => refreshDashboard_resume Fulfilled bonus
  end.

(** Runs, in order, the timers that are due at [now]. *)
Fixpoint fire (now : Z) (ts : list (Z * continuation)) (s : DashboardState)
    : DashboardState * list (Z * continuation) :=
  match ts with
  | [] => (s, [])
  | (d, k) :: rest =>
      if (d <=? now)%Z then fire now rest (resume k s) else (s, ts)
  end.

(** What the application does: it calls one of the two loads, it calls a
    synchronous action of the store, or it lets time pass.  [bonus] is the
    value that [Math.floor(Math.random() * 50)] yields when that refresh
    resumes. *)
Inductive step : Type :=
| CallFetch
| CallRefresh (bonus : number)
| CallSync (action : DashboardState -> DashboardState)
| Elapse (ms : Z).

Definition exec (L : Loop) (st : step) : Loop :=
  match st with
  | CallFetch =>
      mkLoop L.(clock) (fetchDashboardData_call L.(store))
        (schedule (L.(clock) + 800) ResumeFetch L.(timers))
  | CallRefresh bonus =>
      mkLoop L.(clock) (refreshDashboard_call L.(store))
        (schedule (L.(clock) + 500) (ResumeRefresh bonus) L.(timers))
  | CallSync action =>
      mkLoop L.(clock) (action L.(store)) L.(timers)
  | Elapse ms =>
      let now := (L.(clock) + ms)%Z in
      let '(s, ts) := fire now L.(timers) L.(store) in
      mkLoop now s ts
  end.

Definition run (script : list step) (L : Loop) : Loop :=
  fold_left exec script L.

(** A store in state [s] with no load in flight. *)
Definition idle (s : DashboardState) : Loop := mkLoop 0 s [].

(** ** Quest objects and their identity

    A JavaScript array holds references.  To tell the same object from an
    equal copy, the quests of [activeQuests] are here objects in a heap:
    the array is a list of addresses, an object literal allocates a new
    address, and an expression that evaluates to an existing object
    yields its address. *)

Abbreviation loc := positive.
Abbreviation QuestHeap := (gmap loc DashboardQuest.t).




(** An object literal: a new object, at an address that is not in use. *)
Definition alloc (h : QuestHeap) (quest : DashboardQuest.t) : loc * QuestHeap :=
  let r := fresh (dom h) in (r, <[r := quest]> h).




(** A callback that copies every quest it does not update: it gives equal
    quests, but none of them is the object it was given. *)
Definition copyQuest_ref (questId : string) (progress : number)
    (h : QuestHeap) (r : loc) : loc * QuestHeap :=
  match h !! r with
  | Some quest =>
      if String.eqb quest.(DashboardQuest.id) questId
      then alloc h (withProgress progress quest)
      else alloc h quest
  | None => (r, h)
  end.



(** ** The rest of the store: persistence and selectors *)

#[global] Instance QuestType_eq_dec : EqDecision QuestType.
Proof. solve_decision. Defined.

(** *** [Array.prototype.slice(0, end)]

    [end] goes through [ToIntegerOrInfinity]: [NaN] counts as [0], a
    fraction is cut off towards zero; a negative [end] counts from the end
    of the array, and the result never leaves the array. *)
Module JsArray.

Inductive integerOrInfinity : Type :=
| Int (n : Z)
| PlusInfinity
| MinusInfinity.

Definition toIntegerOrInfinity (x : number) : integerOrInfinity :=
  match x with
  | Js.NaN => Int 0
  | Js.PInf => PlusInfinity
  | Js.NInf => MinusInfinity
  | Js.Fin q => Int (Z.quot (Qnum (this q)) (Z.pos (Qden (this q))))
  end.

(** The index at which [slice(0, end)] stops, on an array of [len]
    elements. *)
Definition final (len : nat) (end_ : number) : nat :=
  match toIntegerOrInfinity end_ with
  | MinusInfinity => 0
  | PlusInfinity => len
  | Int n =>
      if (n <? 0)%Z then Z.to_nat (Z.max (Z.of_nat len + n) 0)
      else Z.to_nat (Z.min n (Z.of_nat len))
  end.

Definition slice0 {A} (l : list A) (end_ : number) : list A :=
  take (final (length l) end_) l.

(** [array.length], as a number. *)
Definition length_number {A} (l : list A) : number :=
  Js.of_Z (Z.of_nat (length l)).

End JsArray.

(** [x - y] *)
Definition Js_sub (x y : number) : number :=
  Js.add x (Js.mul (Js.of_Z (-1)) y).

(** *** What [persist] writes: [partialize] *)
Module Persisted.
Record t : Type := mk {
  showCompletedQuests : bool;
  activityLimit : number;
  filters : DashboardFilters;
}.
End Persisted.

Definition partialize (state : DashboardState) : Persisted.t := {|
  Persisted.showCompletedQuests := state.(showCompletedQuests);
  Persisted.activityLimit := state.(activityLimit);
  Persisted.filters := state.(filters);
|}.

(** *** Selectors *)
Definition selectUser (state : DashboardState) := state.(user).
Definition selectUserStats (state : DashboardState) : option UserStats.t :=
  DashboardUser.stats <$> state.(user).
Definition selectActiveQuests (state : DashboardState) := state.(activeQuests).
Definition selectActivities (state : DashboardState) := state.(activities).
Definition selectUpcomingClasses (state : DashboardState) :=
  state.(upcomingClasses).
Definition selectLeaderboard (state : DashboardState) := state.(leaderboard).
Definition selectIsLoading (state : DashboardState) := state.(isLoading).
Definition selectError (state : DashboardState) := state.(error).

Definition selectInProgressQuests (state : DashboardState)
    : list DashboardQuest.t :=
  filter (fun quest => quest.(DashboardQuest.status) = in_progress)
    state.(activeQuests).

Definition selectDailyQuests (state : DashboardState) : list DashboardQuest.t :=
  filter (fun quest => quest.(DashboardQuest.type) = daily)
    state.(activeQuests).

(** [quest.isExpiringSoon] is an optional boolean: it holds when the key
    is there and [true]. *)
Definition selectExpiringQuests (state : DashboardState)
    : list DashboardQuest.t :=
  filter (fun quest => quest.(DashboardQuest.isExpiringSoon) = Some true)
    state.(activeQuests).

Definition selectLimitedActivities (state : DashboardState)
    : list DashboardActivity.t :=
  JsArray.slice0 state.(activities) state.(activityLimit).

(** [state.leaderboard.find((entry) => entry.isCurrentUser)] *)
Definition selectCurrentUserRank (state : DashboardState)
    : option LeaderboardEntry.t :=
  find (fun entry =>
          bool_decide (entry.(LeaderboardEntry.isCurrentUser) = Some true))
    state.(leaderboard).

(** [useDashboardLoading] *)
Definition useDashboardLoading (state : DashboardState) : bool * bool :=
  (selectIsLoading state, state.(isRefreshing)).

(** ** The components that show the store

    Only what they compute from the state: which screen, which sections,
    which quests, which percentage. *)

(** [ProgressBar]: [Math.min(Math.max((value / maxValue) * 100, 0), 100)],
    and [0] when that is [NaN]. *)
Module ProgressBar.
Definition percentage (value maxValue : number) : number :=
  let calculated :=
    Js.min (Js.max (Js.mul (Js.div value maxValue) 100%Z) 0%Z) 100%Z in
  match calculated with
  | Js.NaN => Js.of_Z 0
  | _ => calculated
  end.
End ProgressBar.

(** [QuestCard]: [quest.progress.percentage >= 100]. *)
Module QuestCard.
Definition isComplete (quest : DashboardQuest.t) : bool :=
  Js.geb quest.(DashboardQuest.progress).(QuestProgress.percentage) 100%Z.
End QuestCard.

(** [ActiveQuestsList]: the quests shown, whether there are more, and how
    many the "View N more" button announces. *)
Module ActiveQuestsList.
Definition displayedQuests (quests : list DashboardQuest.t) (maxDisplay : number)
    : list DashboardQuest.t :=
  JsArray.slice0 quests maxDisplay.

Definition hasMoreQuests (quests : list DashboardQuest.t) (maxDisplay : number)
    : bool :=
  Js.gtb (JsArray.length_number quests) maxDisplay.

Definition remainingCount (quests : list DashboardQuest.t) (maxDisplay : number)
    : number :=
  Js_sub (JsArray.length_number quests) maxDisplay.
End ActiveQuestsList.

(** [DashboardPage]: the screen it returns for a state of the store.  A
    string is truthy when it is not empty. *)
Module DashboardPage.

Inductive Screen : Type :=
| ErrorScreen (message : string)
| SkeletonScreen
| Dashboard (header : option DashboardUser.t)
    (quests : list DashboardQuest.t)
    (schedule : option (list UpcomingClass.t))
    (weekly : option WeeklyStats.t)
    (refreshDisabled : bool).

(** [UpcomingClassesSection]: nothing for an empty list, else the first
    three classes. *)
Definition UpcomingClassesSection (classes : list UpcomingClass.t)
    : option (list UpcomingClass.t) :=
  if Nat.eqb (length classes) 0 then None
  else Some (JsArray.slice0 classes 3%Z).

(** Truthiness of [error: string | null] and of [user: DashboardUser | null]. *)
Definition truthy_string (x : option string) : bool :=
  match x with
  | Some s => negb (String.eqb s "")
  | None => false
  end.

Definition truthy_object {A} (x : option A) : bool :=
  match x with
  | Some _ => true
  | None => false
  end.

Definition render (state : DashboardState) : Screen :=
  if truthy_string state.(error) && negb (truthy_object state.(user))
  then ErrorScreen (default "" state.(error))
  else if state.(isLoading) && negb (truthy_object state.(user))
  then SkeletonScreen
  else Dashboard state.(user)
         (ActiveQuestsList.displayedQuests state.(activeQuests) 4%Z)
         (UpcomingClassesSection state.(upcomingClasses))
         state.(weeklyStats) state.(isRefreshing).

(** The effect on mount calls [fetchDashboardData()]; the refresh button
    and the "Try Again" button call [refreshDashboard()]. *)
Definition mount : step := CallFetch.
Definition handleRefresh (bonus : number) : step := CallRefresh bonus.

End DashboardPage.

(** ** [formatRelativeTime] ([features/dashboard/api/mockData])

    [now] is [new Date().getTime()], in milliseconds; [date] is
    [new Date(timestamp).getTime()], [None] when the timestamp does not
    parse (the time is then [NaN], and every comparison below is false).
    The calendar text of [date.toLocaleDateString('en-US', ...)] is the
    platform's and is taken as given. *)
Section FormatRelativeTime.
Variable toLocaleDateString : option Z -> string.

Definition formatRelativeTime (now : Z) (date : option Z) : string :=
  match date with
  | None => toLocaleDateString date
  | Some time =>
      let diffMs := (now - time)%Z in
      let diffMins := (diffMs / 60000)%Z in
      let diffHours := (diffMins / 60)%Z in
      let diffDays := (diffHours / 24)%Z in
      if (diffMins <? 1)%Z then "Just now"
      else if (diffMins <? 60)%Z then pretty diffMins +:+ "m ago"
      else if (diffHours <? 24)%Z then pretty diffHours +:+ "h ago"
      else if (diffDays <? 7)%Z then pretty diffDays +:+ "d ago"
      else toLocaleDateString date
  end.

End FormatRelativeTime.

(** ** Vocabulary of the properties

    The specification's own notions, sequences of calls, and the states
    and quests that the examples below run the store on. *)

(** [clamp(x, lo, hi)], as the specification uses it for the percentage
    invariant of a quest. *)
Definition clamp (x lo hi : number) : number := Js.max lo (Js.min x hi).

(** The percentage the specification asks for: [clamp(current / target *
    100, 0, 100)], and [0] when the target is [0]. *)
Definition spec_percentage (current target : number) : number :=
  if decide (target = Js.of_Z 0) then Js.of_Z 0
  else clamp (Js.mul (Js.div current target) 100%Z) 0%Z 100%Z.

(** [0 <= current <= target] *)
Definition in_range (current target : number) : bool :=
  Js.leb 0%Z current && Js.leb current target.

(** The state after a successful [fetchDashboardData()] on a new store:
    the mock snapshot. *)
Definition loaded : DashboardState := fetchDashboardData Fulfilled initialState.

(** A quest that nothing has been done on and that asks for nothing: its
    target is [0]. *)
Definition emptyQuest : DashboardQuest.t :=
  MockData.quest "quest_000" "Warm-up" side qc_wellness easy
    available 0%Z 0%Z 0%Z 10%Z 5%Z None None "Star" "#ffffff" None None.

(** The progress, and the status, of the quest at position [i] of
    [activeQuests]. *)
Definition progressAt (i : nat) (s : DashboardState) : option QuestProgress.t :=
  DashboardQuest.progress <$> activeQuests s !! i.

Definition statusAt (i : nat) (s : DashboardState) : option QuestStatus :=
  DashboardQuest.status <$> activeQuests s !! i.

(** A quest that is still locked, with a target of 5. *)
Definition lockedQuest : DashboardQuest.t :=
  MockData.quest "quest_006" "Hidden Chapter" main qc_special hard
    locked 0%Z 5%Z 0%Z 300%Z 100%Z None None "Lock" "#64748b" None None.

(** A quest whose reward has been claimed, with a target of 5. *)
Definition claimedQuest : DashboardQuest.t :=
  MockData.quest "quest_007" "First Steps" side qc_academic easy
    claimed 5%Z 5%Z 100%Z 50%Z 25%Z None None "Check" "#22c55e" None None.

(** A quest is done when it is [completed] or [claimed]. *)
Definition done_status (st : QuestStatus) : Prop :=
  st = completed \/ st = claimed.

(** A sequence of [updateQuestProgress(questId, newCurrent)] calls. *)
Definition updateQuestProgress_calls (calls : list (string * number))
    (s : DashboardState) : DashboardState :=
  fold_left (fun s call => updateQuestProgress call.1 call.2 s) calls s.

(** The snapshot fields of the state. *)
Definition same_snapshot (s s' : DashboardState) : Prop :=
  user s' = user s
  /\ activeQuests s' = activeQuests s
  /\ activities s' = activities s
  /\ upcomingClasses s' = upcomingClasses s
  /\ leaderboard s' = leaderboard s
  /\ featuredBadges s' = featuredBadges s
  /\ weeklyStats s' = weeklyStats s.

(** A sequence of [addActivity] calls, in call order. *)
Definition addActivity_calls (acts : list DashboardActivity.t)
    (s : DashboardState) : DashboardState :=
  fold_left (fun s activity => addActivity activity s) acts s.

(** The [n]-th of a series of activities. *)
Definition numbered (n : nat) : DashboardActivity.t :=
  MockData.activity ("activity_" +:+ pretty n) quest_completed
    "Quest Completed!" "" (Iso "2024-01-01T00:00:00.000Z")
    "CheckCircle" "#10b981" None None.

(** A step that leaves the two loading flags to the loads: a call of a
    load, time passing, or a synchronous action that writes neither
    [isLoading] nor [isRefreshing]. *)
Definition keeps_flags (st : step) : Prop :=
  match st with
  | CallSync action =>
      forall s, isLoading (action s) = isLoading s
                /\ isRefreshing (action s) = isRefreshing s
  | _ => True
  end.

(** A fetch, or a refresh, is in flight. *)
Definition fetch_pending (ts : list (Z * continuation)) : Prop :=
  exists due, (due, ResumeFetch) ∈ ts.

Definition refresh_pending (ts : list (Z * continuation)) : Prop :=
  exists due bonus, (due, ResumeRefresh bonus) ∈ ts.

(** A flag is up only while its load is in flight. *)
Definition flags_backed (s : DashboardState) (ts : list (Z * continuation))
    : Prop :=
  (isLoading s = true -> fetch_pending ts)
  /\ (isRefreshing s = true -> refresh_pending ts).

(** A step that is a load or time passing, not a synchronous action. *)
Definition loads_only (st : step) : Prop :=
  match st with
  | CallSync _ => False
  | _ => True
  end.

(** * Properties *)

(** ** Numbers *)
Module JsFacts.
Import Js.

Lemma Qc_of_Z_0 : Qc_of_Z 0 = 0%Qc.
Proof. apply Qc_is_canon. reflexivity. Qed.

Lemma compare_Fin_Eq (a b : Qc) : (a ?= b)%Qc = Eq -> Fin a = Fin b.
Proof. intros H. apply Qceq_alt in H. by subst. Qed.

(** [0 + x = x], for every number. *)
Lemma add_0_l (x : number) : add (of_Z 0) x = x.
Proof.
  destruct x as [q| | |]; try reflexivity.
  unfold of_Z, add. rewrite Qc_of_Z_0. by rewrite Qcplus_0_l.
Qed.

(** [Math.max(0, y)] is [y] as soon as [y] is not negative. *)
Lemma max_0_nonneg (y : number) : leb (of_Z 0) y = true -> max (of_Z 0) y = y.
Proof.
  unfold leb, max. destruct y as [q| | |]; simpl; try done.
  destruct (Qc_of_Z 0 ?= q)%Qc eqn:E; try done.
  intros _. by apply compare_Fin_Eq.
Qed.

Lemma Qc_div_mul_nonneg (a b c : Qc) :
  (0 <= a)%Qc -> (0 < b)%Qc -> (0 <= c)%Qc -> (0 <= a / b * c)%Qc.
Proof.
  intros Ha Hb Hc. unfold Qcle, Qclt in *. simpl in *.
  rewrite !Qred_correct.
  apply Qmult_le_0_compat; [|done].
  apply Qmult_le_0_compat; [done|].
  apply Qinv_le_0_compat. by apply Qlt_le_weak.
Qed.

(** Capping a non-negative number at 100 leaves it non-negative. *)
Lemma min_100_nonneg (x : number) :
  leb (of_Z 0) x = true -> leb (of_Z 0) (min x (of_Z 100)) = true.
Proof.
  unfold leb, min. destruct x as [q| | |]; simpl; try done.
  intros H. destruct (q ?= Qc_of_Z 100)%Qc; done.
Qed.

End JsFacts.

(** ** Quest progress *)

Section QuestProgress.
Import Js JsFacts.

Lemma leb_0_Fin (a : Qc) : leb (of_Z 0) (Fin a) = true -> (0 <= a)%Qc.
Proof.
  unfold leb, of_Z. simpl. rewrite Qc_of_Z_0. intros H.
  apply Qcle_alt. by destruct (0 ?= a)%Qc.
Qed.

Lemma ltb_0_Fin (b : Qc) : ltb (of_Z 0) (Fin b) = true -> (0 < b)%Qc.
Proof.
  unfold ltb, of_Z. simpl. rewrite Qc_of_Z_0. intros H.
  apply Qclt_alt. by destruct (0 ?= b)%Qc.
Qed.

Lemma Fin_leb_0 (a : Qc) : (0 <= a)%Qc -> leb (of_Z 0) (Fin a) = true.
Proof.
  unfold leb, of_Z. simpl. rewrite Qc_of_Z_0. intros H.
  apply (proj1 (Qcle_alt _ _)) in H. revert H. by destruct (0 ?= a)%Qc.
Qed.

Lemma Qc_pos_compare (b : Qc) : (0 < b)%Qc -> (b ?= 0)%Qc = Gt.
Proof. intros H. by apply Qcgt_alt. Qed.

(** On a non-negative progress and a positive target, the capped ratio is
    already at least [0]: the lower bound of [clamp] changes nothing. *)
Lemma capped_ratio_is_clamped (p t : number) :
  leb (of_Z 0) p = true -> ltb (of_Z 0) t = true ->
  min (mul (div p t) (of_Z 100)) (of_Z 100)
  = clamp (mul (div p t) (of_Z 100)) (of_Z 0) (of_Z 100).
Proof.
  intros Hp Ht. unfold clamp. symmetry.
  destruct p as [a| | |], t as [b| | |]; try done.
  - apply leb_0_Fin in Hp. apply ltb_0_Fin in Ht.
    apply max_0_nonneg, min_100_nonneg. simpl.
    destruct (decide (b = 0)%Qc) as [->|_]; [by destruct (Qclt_not_eq _ _ Ht)|].
    apply Fin_leb_0, Qc_div_mul_nonneg; [done..|]. by apply Qcle_alt.
  - by apply max_0_nonneg.
  - apply ltb_0_Fin in Ht. simpl.
    destruct (decide (b = 0)%Qc) as [->|_]; [by destruct (Qclt_not_eq _ _ Ht)|].
    rewrite (Qc_pos_compare _ Ht). by apply max_0_nonneg.
Qed.

End QuestProgress.

Lemma activeQuests_updateQuestProgress questId progress s :
  activeQuests (updateQuestProgress questId progress s)
  = map (updateQuest questId progress) (activeQuests s).
Proof. by destruct s. Qed.

Lemma lookup_updateQuestProgress questId progress s (i : nat) :
  activeQuests (updateQuestProgress questId progress s) !! i
  = updateQuest questId progress <$> activeQuests s !! i.
Proof. by rewrite activeQuests_updateQuestProgress, list_lookup_fmap. Qed.

Lemma updateQuest_other questId progress quest :
  quest.(DashboardQuest.id) ≠ questId ->
  updateQuest questId progress quest = quest.
Proof.
  intros Hid. unfold updateQuest.
  by destruct (String.eqb_spec quest.(DashboardQuest.id) questId).
Qed.

Lemma updateQuest_target questId progress quest :
  quest.(DashboardQuest.id) = questId ->
  updateQuest questId progress quest = withProgress progress quest.
Proof.
  intros Hid. unfold updateQuest.
  by destruct (String.eqb_spec quest.(DashboardQuest.id) questId).
Qed.

Ltac Qc_canon := apply (f_equal Js.Fin), Qc_is_canon; reflexivity.

(** C1, as stated, fails twice.  On the mock quest [quest_001] (target 5),
    [updateQuestProgress('quest_001', -1)] stores the percentage [-20],
    where the clamp gives [0]; on a quest whose target is [0],
    [updateQuestProgress('quest_000', 3)] stores [100] (the capped
    [Infinity]), where the claim defines the percentage as [0]. *)
Lemma C1_counterexample :
  (exists p,
     progressAt 0 (updateQuestProgress "quest_001" (-1)%Z loaded) = Some p
     /\ p.(QuestProgress.percentage) = Js.of_Z (-20)
     /\ spec_percentage p.(QuestProgress.current) p.(QuestProgress.target)
        = Js.of_Z 0
     /\ p.(QuestProgress.percentage)
        <> spec_percentage p.(QuestProgress.current) p.(QuestProgress.target))
  /\
  (exists p,
     progressAt 0 (updateQuestProgress "quest_000" 3%Z
                     (setActiveQuests [emptyQuest] initialState)) = Some p
     /\ p.(QuestProgress.target) = Js.of_Z 0
     /\ p.(QuestProgress.percentage) = Js.of_Z 100
     /\ spec_percentage p.(QuestProgress.current) p.(QuestProgress.target)
        = Js.of_Z 0
     /\ p.(QuestProgress.percentage)
        <> spec_percentage p.(QuestProgress.current) p.(QuestProgress.target)).
Proof.
  split; (eexists; split; [reflexivity|]);
    repeat split; try (vm_compute; Qc_canon);
    vm_compute; intros H; inversion H.
Qed.

(** C1, amended.  For every quest of [activeQuests] whose id is [questId]
    and whose target is positive, and every [newCurrent >= 0], immediately
    after [updateQuestProgress(questId, newCurrent)] the quest's
    [progress.percentage] equals [clamp(current / target * 100, 0, 100)],
    where [current] and [target] are those of the updated quest. *)
Theorem C1_percentage_clamped (s : DashboardState) (questId : string)
    (newCurrent : number) (i : nat) (quest : DashboardQuest.t) :
  activeQuests s !! i = Some quest ->
  quest.(DashboardQuest.id) = questId ->
  Js.leb 0%Z newCurrent = true ->
  Js.ltb 0%Z quest.(DashboardQuest.progress).(QuestProgress.target) = true ->
  exists p,
    progressAt i (updateQuestProgress questId newCurrent s) = Some p
    /\ p.(QuestProgress.percentage)
       = clamp (Js.mul (Js.div p.(QuestProgress.current) p.(QuestProgress.target))
                  100%Z) 0%Z 100%Z.
Proof.
  intros Hi Hid Hcur Htgt. unfold progressAt.
  rewrite lookup_updateQuestProgress, Hi. simpl.
  rewrite (updateQuest_target _ _ _ Hid). simpl.
  eexists. split; [reflexivity|]. simpl.
  by apply capped_ratio_is_clamped.
Qed.

(** Scenario A of the specification: the mock quest [{current: 4, target:
    5}] updated to 5. *)
Lemma C1_percentage_clamped_witness :
  (exists quest,
     activeQuests loaded !! 0%nat = Some quest
     /\ quest.(DashboardQuest.id) = "quest_001"
     /\ Js.leb 0%Z 5%Z = true
     /\ Js.ltb 0%Z quest.(DashboardQuest.progress).(QuestProgress.target) = true)
  /\
  (exists p,
     progressAt 0 (updateQuestProgress "quest_001" 5%Z loaded) = Some p
     /\ p.(QuestProgress.percentage)
        = clamp (Js.mul (Js.div p.(QuestProgress.current) p.(QuestProgress.target))
                   100%Z) 0%Z 100%Z).
Proof.
  split.
  - eexists. repeat split; reflexivity.
  - eapply (C1_percentage_clamped loaded "quest_001" 5%Z 0%nat);
      reflexivity.
Defined.

(** ** C2: the stored [current] *)

(** C2, as stated, fails on the mock quest [quest_001] (target 5):
    [updateQuestProgress('quest_001', -1)] stores [current = -1], below 0,
    and [updateQuestProgress('quest_001', 7)] stores [current = 7], above
    the target. *)
Lemma C2_counterexample :
  (exists p,
     progressAt 0 (updateQuestProgress "quest_001" (-1)%Z loaded) = Some p
     /\ p.(QuestProgress.current) = Js.of_Z (-1)
     /\ Js.ltb p.(QuestProgress.current) 0%Z = true
     /\ in_range p.(QuestProgress.current) p.(QuestProgress.target) = false)
  /\
  (exists p,
     progressAt 0 (updateQuestProgress "quest_001" 7%Z loaded) = Some p
     /\ p.(QuestProgress.current) = Js.of_Z 7
     /\ p.(QuestProgress.target) = Js.of_Z 5
     /\ Js.gtb p.(QuestProgress.current) p.(QuestProgress.target) = true
     /\ in_range p.(QuestProgress.current) p.(QuestProgress.target) = false).
Proof.
  split; (eexists; split; [reflexivity|]); repeat split.
Qed.

(** C2, amended.  For every quest of [activeQuests] whose id is [questId]
    and every [newCurrent], [updateQuestProgress(questId, newCurrent)]
    stores [newCurrent] itself as [progress.current], without clamping, and
    keeps [progress.target]; so [0 <= current <= target] holds after the
    call exactly when [0 <= newCurrent <= target] held for the argument. *)
Theorem C2_current_stored_unclamped (s : DashboardState) (questId : string)
    (newCurrent : number) (i : nat) (quest : DashboardQuest.t) :
  activeQuests s !! i = Some quest ->
  quest.(DashboardQuest.id) = questId ->
  exists p,
    progressAt i (updateQuestProgress questId newCurrent s) = Some p
    /\ p.(QuestProgress.current) = newCurrent
    /\ p.(QuestProgress.target)
       = quest.(DashboardQuest.progress).(QuestProgress.target)
    /\ in_range p.(QuestProgress.current) p.(QuestProgress.target)
       = in_range newCurrent
           quest.(DashboardQuest.progress).(QuestProgress.target).
Proof.
  intros Hi Hid. unfold progressAt.
  rewrite lookup_updateQuestProgress, Hi. simpl.
  rewrite (updateQuest_target _ _ _ Hid). simpl.
  eexists. by repeat split.
Qed.

Lemma C2_current_stored_unclamped_witness :
  (exists quest,
     activeQuests loaded !! 1%nat = Some quest
     /\ quest.(DashboardQuest.id) = "quest_002")
  /\
  (exists p,
     progressAt 1 (updateQuestProgress "quest_002" 12%Z loaded) = Some p
     /\ p.(QuestProgress.current) = Js.of_Z 12
     /\ p.(QuestProgress.target) = Js.of_Z 10
     /\ in_range p.(QuestProgress.current) p.(QuestProgress.target)
        = in_range 12%Z 10%Z).
Proof.
  split.
  - eexists. split; reflexivity.
  - exact (C2_current_stored_unclamped loaded "quest_002" 12%Z 1%nat _
             eq_refl eq_refl).
Defined.

(** ** C4, C5: the status of an updated quest *)

Lemma updateQuest_status questId progress quest :
  (updateQuest questId progress quest).(DashboardQuest.status)
  = if String.eqb quest.(DashboardQuest.id) questId
       && Js.geb progress quest.(DashboardQuest.progress).(QuestProgress.target)
    then completed
    else quest.(DashboardQuest.status).
Proof.
  unfold updateQuest.
  by destruct (String.eqb quest.(DashboardQuest.id) questId).
Qed.

Lemma updateQuest_id questId progress quest :
  (updateQuest questId progress quest).(DashboardQuest.id)
  = quest.(DashboardQuest.id).
Proof.
  unfold updateQuest.
  by destruct (String.eqb quest.(DashboardQuest.id) questId).
Qed.

(** C4, as stated, fails: a quest that is [locked] is moved to
    [completed] by [updateQuestProgress('quest_006', 5)] when its target is
    5, although its prior status is neither [in_progress] nor
    [available]. *)
Lemma C4_counterexample :
  let s := setActiveQuests [lockedQuest] initialState in
  statusAt 0 s = Some locked
  /\ Js.geb 5%Z lockedQuest.(DashboardQuest.progress).(QuestProgress.target) = true
  /\ statusAt 0 (updateQuestProgress "quest_006" 5%Z s) = Some completed.
Proof. repeat split. Qed.

(** C4, amended.  [updateQuestProgress(questId, newCurrent)] sets the
    status of a quest whose id is [questId] to [completed] exactly when
    [newCurrent >= progress.target], whatever the prior status is
    ([locked], [claimed] and [expired] included), and leaves the status as
    it was otherwise; the status therefore changes exactly when
    [newCurrent >= progress.target] and the prior status was not
    [completed]. *)
Theorem C4_completed_on_target_reached (s : DashboardState) (questId : string)
    (newCurrent : number) (i : nat) (quest : DashboardQuest.t) :
  activeQuests s !! i = Some quest ->
  quest.(DashboardQuest.id) = questId ->
  let target := quest.(DashboardQuest.progress).(QuestProgress.target) in
  let prior := quest.(DashboardQuest.status) in
  exists status',
    statusAt i (updateQuestProgress questId newCurrent s) = Some status'
    /\ status' = (if Js.geb newCurrent target then completed else prior)
    /\ (status' <> prior <-> Js.geb newCurrent target = true /\ prior <> completed).
Proof.
  intros Hi Hid target prior. unfold statusAt.
  rewrite lookup_updateQuestProgress, Hi. simpl.
  rewrite updateQuest_status.
  destruct (String.eqb_spec quest.(DashboardQuest.id) questId) as [_|]; [|done].
  simpl. fold target prior. eexists. split; [reflexivity|]. split; [done|].
  destruct (Js.geb newCurrent target); split.
  - intros H. split; [done|]. intros Hp. by rewrite Hp in H.
  - intros [_ H] Hp. by rewrite Hp in H.
  - done.
  - by intros [? _].
Qed.

Lemma C4_completed_on_target_reached_witness :
  (activeQuests (setActiveQuests [claimedQuest] initialState) !! 0%nat
     = Some claimedQuest
   /\ claimedQuest.(DashboardQuest.id) = "quest_007")
  /\
  (exists status',
     statusAt 0 (updateQuestProgress "quest_007" 6%Z
                   (setActiveQuests [claimedQuest] initialState)) = Some status'
     /\ status' = (if Js.geb 6%Z 5%Z then completed else claimed)
     /\ (status' <> claimed <-> Js.geb 6%Z 5%Z = true /\ claimed <> completed)).
Proof.
  split.
  - split; reflexivity.
  - exact (C4_completed_on_target_reached
             (setActiveQuests [claimedQuest] initialState) "quest_007" 6%Z 0%nat
             claimedQuest eq_refl eq_refl).
Defined.

Lemma updateQuest_done questId progress quest :
  done_status quest.(DashboardQuest.status) ->
  done_status (updateQuest questId progress quest).(DashboardQuest.status).
Proof.
  rewrite updateQuest_status. intros H.
  destruct (_ && _); [by left|done].
Qed.

Lemma updateQuest_completed questId progress quest :
  quest.(DashboardQuest.status) = completed ->
  (updateQuest questId progress quest).(DashboardQuest.status) = completed.
Proof. rewrite updateQuest_status. intros H. by destruct (_ && _). Qed.

Lemma updateQuest_lower questId progress quest :
  Js.geb progress quest.(DashboardQuest.progress).(QuestProgress.target) = false ->
  (updateQuest questId progress quest).(DashboardQuest.status)
  = quest.(DashboardQuest.status).
Proof. rewrite updateQuest_status. intros ->. by rewrite andb_false_r. Qed.

(** C5, as stated, fails for a [claimed] quest: with a target of 5,
    [updateQuestProgress('quest_007', 6)] does not leave its status
    [claimed] but writes [completed]. *)
Lemma C5_counterexample :
  let s := setActiveQuests [claimedQuest] initialState in
  statusAt 0 s = Some claimed
  /\ statusAt 0 (updateQuestProgress "quest_007" 6%Z s) = Some completed
  /\ statusAt 0 (updateQuestProgress "quest_007" 6%Z s) <> statusAt 0 s.
Proof. repeat split. discriminate. Qed.

(** C5, amended.  A quest of [activeQuests] whose status is [completed]
    or [claimed] still has a status among [completed] and [claimed] after
    any sequence of [updateQuestProgress] calls, on any quest ids and with
    any values: it is never taken back to [in_progress] or to any other
    status before completion.  A [completed] quest stays [completed]; and
    one call whose value is not at or above the target leaves the status
    exactly as it was. *)
Theorem C5_completion_one_way (calls : list (string * number))
    (s : DashboardState) (i : nat) (quest : DashboardQuest.t) :
  activeQuests s !! i = Some quest ->
  done_status quest.(DashboardQuest.status) ->
  (exists quest',
     activeQuests (updateQuestProgress_calls calls s) !! i = Some quest'
     /\ quest'.(DashboardQuest.id) = quest.(DashboardQuest.id)
     /\ done_status quest'.(DashboardQuest.status)
     /\ (quest.(DashboardQuest.status) = completed ->
         quest'.(DashboardQuest.status) = completed))
  /\
  (forall questId newCurrent,
     Js.geb newCurrent quest.(DashboardQuest.progress).(QuestProgress.target)
       = false ->
     statusAt i (updateQuestProgress questId newCurrent s)
     = Some quest.(DashboardQuest.status)).
Proof.
  intros Hi Hdone. split.
  - revert s quest Hi Hdone.
    induction calls as [|[questId newCurrent] calls IH]; intros s quest Hi Hdone.
    + exists quest. by repeat split.
    + simpl.
      destruct (IH (updateQuestProgress questId newCurrent s)
                  (updateQuest questId newCurrent quest))
        as (quest' & Hq' & Hid' & Hd' & Hc').
      * by rewrite lookup_updateQuestProgress, Hi.
      * by apply updateQuest_done.
      * exists quest'. split; [done|]. split.
        { by rewrite Hid', updateQuest_id. }
        split; [done|]. intros Hc. by apply Hc', updateQuest_completed.
  - intros questId newCurrent Hlow. unfold statusAt.
    rewrite lookup_updateQuestProgress, Hi. simpl.
    by rewrite updateQuest_lower.
Qed.

(** The quest of Scenario A, completed by [updateQuestProgress('quest_001',
    5)], then updated again with lower and higher values. *)
Lemma C5_completion_one_way_witness :
  let s := updateQuestProgress "quest_001" 5%Z loaded in
  let calls := [("quest_001", Js.of_Z 2); ("quest_002", Js.of_Z 10);
                ("quest_001", Js.of_Z 0); ("quest_001", Js.of_Z 9)] in
  statusAt 0 s = Some completed
  /\ statusAt 0 (updateQuestProgress_calls calls s) = Some completed
  /\ statusAt 0 (updateQuestProgress "quest_001" 2%Z s) = Some completed.
Proof.
  intros s calls.
  destruct (C5_completion_one_way calls s 0%nat
              (updateQuest "quest_001" 5%Z
                 (MockData.quest "quest_001" "Perfect Attendance Week" weekly
                    qc_attendance medium in_progress 4%Z 5%Z 80%Z 500%Z 200%Z None
                    (Some (SinceLoad (3 * 24 * 60 * 60 * 1000))) "CalendarCheck"
                    "#10b981" (Some false) (Some "3 days left")))
              eq_refl (or_introl eq_refl))
    as [(quest' & Hq' & _ & _ & Hc') Hlow].
  split; [reflexivity|]. split.
  - unfold statusAt. rewrite Hq'. simpl. f_equal. by apply Hc'.
  - by apply (Hlow "quest_001" (Js.of_Z 2)).
Defined.

(** ** C6: a load that fails *)

(** C6.  When the load that [fetchDashboardData()] awaits is rejected, the
    call ends normally for its caller (nothing is thrown), and the state
    it leaves has [error] set to the message ([error.message] of an
    [Error], ['Failed to fetch dashboard data'] for any other thrown
    value), [isLoading] false, and every snapshot field ([user],
    [activeQuests], [activities], [upcomingClasses], [leaderboard],
    [featuredBadges], [weeklyStats]) as it was before the call; the
    [catch] block on its own changes nothing but [error] and [isLoading].
    Scenario B: a rejection with [Error('Network error')] leaves
    [error = 'Network error']. *)
Theorem C6_fetch_failure_keeps_snapshot (s : DashboardState) (reason : thrown) :
  let s' := fetchDashboardData (Rejected reason) s in
  (fetchDashboardData_outcome (Rejected reason) s).1 = inl tt
  /\ error s' = Some (errorMessage reason "Failed to fetch dashboard data")
  /\ isLoading s' = false
  /\ same_snapshot s s'
  /\ same_snapshot s (fetchDashboardData_resume (Rejected reason) s)
  /\ fetchDashboardData_resume (Rejected reason) s
     = setLoading false
         (setError (Some (errorMessage reason "Failed to fetch dashboard data")) s)
  /\ error (fetchDashboardData (Rejected (ErrorObject "Network error")) s)
     = Some "Network error".
Proof. destruct s, reason; repeat split. Qed.

(** ** C7: the activity log *)

Lemma activities_addActivity activity s :
  activities (addActivity activity s) = take 20 (activity :: activities s).
Proof. by destruct s. Qed.

Lemma take_cons_take {A} (n : nat) (x : A) (l : list A) :
  take (S n) (x :: take (S n) l) = take (S n) (x :: l).
Proof. simpl. f_equal. rewrite take_take. f_equal. lia. Qed.

Lemma addActivity_calls_snoc acts b s :
  addActivity_calls (acts ++ [b]) s = addActivity b (addActivity_calls acts s).
Proof. unfold addActivity_calls. by rewrite fold_left_app. Qed.

(** After the calls [addActivity(a); addActivity(b1); ...; addActivity(bn)]
    the log holds the first 20 entries of [bn, ..., b1, a, ...old log]. *)
Lemma activities_addActivity_calls acts a s :
  activities (addActivity_calls (a :: acts) s)
  = take 20 (rev acts ++ a :: activities s).
Proof.
  revert a s. induction acts as [|b acts IH] using rev_ind; intros a s.
  - simpl. apply activities_addActivity.
  - rewrite app_comm_cons, addActivity_calls_snoc.
    rewrite activities_addActivity, IH, rev_unit.
    apply (take_cons_take 19).
Qed.

(** C7.  [addActivity(activity)] puts [activity] in front of the log and
    keeps the first 20 entries of the result.  So, from any state, after
    one call the new entry is first, the log has at most 20 entries, and
    the entries kept behind the new one are the first 19 of the old log:
    the ones dropped are those from position 19 on, the oldest.
    After any non-empty sequence of calls the log is the first 20 entries
    of the added activities, newest first, followed by the old log. *)
Theorem C7_activity_log_bounded (acts : list DashboardActivity.t)
    (a : DashboardActivity.t) (s : DashboardState) :
  activities (addActivity a s) = take 20 (a :: activities s)
  /\ activities (addActivity a s) !! 0%nat = Some a
  /\ activities (addActivity a s) = a :: take 19 (activities s)
  /\ a :: activities s
     = (activities (addActivity a s) ++ drop 19 (activities s))%list
  /\ length (activities (addActivity a s)) = Nat.min 20 (S (length (activities s)))
  /\ activities (addActivity_calls (a :: acts) s)
     = take 20 (rev acts ++ a :: activities s)
  /\ (length (activities (addActivity_calls (a :: acts) s)) <= 20)%nat
  /\ activities (addActivity_calls (acts ++ [a]) s) !! 0%nat = Some a.
Proof.
  rewrite activities_addActivity, activities_addActivity_calls.
  split; [done|]. split; [done|]. split; [done|]. split.
  { simpl. by rewrite take_drop. }
  split.
  { rewrite length_take. simpl. lia. }
  split; [done|]. split.
  { rewrite length_take. lia. }
  by rewrite addActivity_calls_snoc, activities_addActivity.
Qed.

(** Scenario D of the specification: 25 activities added to a new store;
    the log holds the last 20 of them, newest first. *)
Example scenario_D :
  activities (addActivity_calls (numbered <$> seq 1 25) initialState)
  = numbered <$> rev (seq 6 20).
Proof. vm_compute. reflexivity. Qed.

(** ** C8: pending rewards *)



(** The counters add up from any value: nothing caps them. *)
Lemma pendingXPGain_addPendingXP amount s :
  pendingXPGain (addPendingXP amount s) = Js.add (pendingXPGain s) amount.
Proof. by destruct s. Qed.

(** ** C9: what [updateQuestProgress] leaves alone *)


Lemma alloc_fresh (h : QuestHeap) (quest : DashboardQuest.t) :
  h !! (alloc h quest).1 = None
  /\ (alloc h quest).2 !! (alloc h quest).1 = Some quest
  /\ h ⊆ (alloc h quest).2.
Proof.
  unfold alloc. simpl.
  assert (Hfresh : h !! fresh (dom h) = None)
    by apply not_elem_of_dom, is_fresh.
  split; [done|]. split; [by rewrite lookup_insert_eq|].
  by apply insert_subseteq.
Qed.




(** A callback that copied the other quests would not pass: the copy of
    a quest is equal to it, and is another object. *)
Lemma copyQuest_ref_is_another_object questId progress (h : QuestHeap)
    (r : loc) (quest : DashboardQuest.t) :
  h !! r = Some quest ->
  quest.(DashboardQuest.id) <> questId ->
  let '(r', h') := copyQuest_ref questId progress h r in
  h' !! r' = Some quest /\ r' <> r.
Proof.
  intros Hr Hid. unfold copyQuest_ref. rewrite Hr.
  destruct (String.eqb_spec quest.(DashboardQuest.id) questId); [done|].
  destruct (alloc_fresh h quest) as (Hnew & Hat & _).
  destruct (alloc h quest) as [r' h']. simpl in *.
  split; [done|]. intros ->. by rewrite Hr in Hnew.
Qed.



(** ** C10: [setFilters] *)

(** C10.  [setFilters(p)] merges [p] into the filters: a key of [p] gets
    the value it has in [p], a key that [p] does not have keeps the value
    (or the absence) it had in the filters; no state field other than
    [filters] changes; and [setFilters({})] leaves the filters as they
    were. *)
Theorem C10_setFilters_merges (s : DashboardState) (p : DashboardFilters)
    (k : string) :
  filters (setFilters p s) !! k
  = match p !! k with
    | Some v => Some v
    | None => filters s !! k
    end
  /\ setFilters p s
     = mkState (user s) (activeQuests s) (activities s)
         (upcomingClasses s) (leaderboard s) (featuredBadges s)
         (weeklyStats s) (isLoading s) (isRefreshing s) (error s)
         (p ∪ filters s) (showCompletedQuests s) (activityLimit s)
         (pendingXPGain s) (pendingCoinsGain s)
  /\ filters (setFilters ∅ s) = filters s
  /\ setFilters ∅ s = s.
Proof.
  destruct s as [u q a c l b w ld rf er f sc al px pc]. simpl.
  unfold setFilters, set_with, set. simpl.
  rewrite (left_id_L ∅ (∪) f). repeat split.
  rewrite lookup_union. by destruct (p !! k), (f !! k).
Qed.

(** ** C3: a fetch that settles after a later refresh *)

(** Decides the comparisons of due times that [schedule] and [fire] make. *)
Ltac settle_timers :=
  repeat match goal with
  | |- context [(?a <=? ?b)%Z] =>
      first
        [ replace (a <=? b)%Z with true by (symmetry; apply Z.leb_le; lia)
        | replace (a <=? b)%Z with false by (symmetry; apply Z.leb_gt; lia) ]
  end.

(** Runs a script step by step. *)
Ltac run_loop :=
  repeat progress
    (cbn [fold_left exec clock store timers schedule fire];
     rewrite ?Z.add_0_l; settle_timers).

Lemma fetch_success_snapshot (s : DashboardState) :
  let s' := fetchDashboardData_resume Fulfilled s in
  user s' = Some MockData.mockUser
  /\ activeQuests s' = MockData.mockActiveQuests
  /\ activities s' = MockData.mockActivities
  /\ upcomingClasses s' = MockData.mockUpcomingClasses
  /\ leaderboard s' = MockData.mockLeaderboard
  /\ featuredBadges s' = MockData.mockFeaturedBadges
  /\ weeklyStats s' = Some MockData.mockWeeklyStats
  /\ isLoading s' = false.
Proof. destruct s. repeat split. Qed.

(** C3, as stated, fails.  [fetchDashboardData()] is called on a new
    store, [refreshDashboard()] 100 ms later.  The refresh settles first, at
    600 ms, and puts its user (2457 XP, with a bonus of 7) into the state;
    the fetch settles at 800 ms and is not discarded: it replaces that user
    by [mockUser] (2450 XP). *)
Lemma C3_counterexample :
  let L1 := run [CallFetch; Elapse 100; CallRefresh 7%Z; Elapse 500]
              (idle initialState) in
  let L2 := run [Elapse 200] L1 in
  (clock L1 = 600%Z
   /\ timers L1 = [(800%Z, ResumeFetch)]
   /\ user (store L1) = Some (refreshedUser 7%Z))
  /\ (clock L2 = 800%Z
      /\ timers L2 = []
      /\ user (store L2) = Some MockData.mockUser)
  /\ user (store L2) <> user (store L1).
Proof.
  repeat split. vm_compute. intros H. inversion H.
Qed.

(** C3, amended.  The store keeps no token of the loads in flight: each
    load applies its result when its own timer fires.  When
    [refreshDashboard()] is called [d] ms after [fetchDashboardData()] with
    [0 <= d < 300], the refresh settles first (at [d + 500] ms) and applies
    its result while the fetch is still pending; the fetch settles at 800
    ms and applies its result over the refresh's: [user], [activeQuests],
    [activities] and [upcomingClasses] are then those of the fetch, as are
    [leaderboard], [featuredBadges] and [weeklyStats].  The load that
    settles last wins. *)
Theorem C3_last_settled_wins (s : DashboardState) (d : Z) (bonus : number) :
  (0 <= d < 300)%Z ->
  let L1 := run [CallFetch; Elapse d; CallRefresh bonus; Elapse 500] (idle s) in
  let L2 := run [Elapse (300 - d)] L1 in
  (clock L1 = (d + 500)%Z
   /\ timers L1 = [(800%Z, ResumeFetch)]
   /\ store L1
      = refreshDashboard_resume Fulfilled bonus
          (refreshDashboard_call (fetchDashboardData_call s))
   /\ user (store L1) = Some (refreshedUser bonus))
  /\ (clock L2 = 800%Z
      /\ timers L2 = []
      /\ store L2 = fetchDashboardData_resume Fulfilled (store L1)
      /\ user (store L2) = Some MockData.mockUser
      /\ activeQuests (store L2) = MockData.mockActiveQuests
      /\ activities (store L2) = MockData.mockActivities
      /\ upcomingClasses (store L2) = MockData.mockUpcomingClasses
      /\ isLoading (store L2) = false
      /\ isRefreshing (store L2) = false).
Proof.
  intros Hd L1 L2.
  assert (E1 : L1 = mkLoop (d + 500)
                 (refreshDashboard_resume Fulfilled bonus
                    (refreshDashboard_call (fetchDashboardData_call s)))
                 [(800%Z, ResumeFetch)]).
  { subst L1. unfold run, idle. run_loop. by cbn [resume]. }
  assert (E2 : L2 = mkLoop 800 (fetchDashboardData_resume Fulfilled (store L1)) []).
  { subst L2. rewrite E1. unfold run. run_loop. cbn [resume]. f_equal. lia. }
  rewrite E2. rewrite E1. cbn [clock store timers].
  split; [by destruct s|]. by destruct s.
Qed.

Lemma C3_last_settled_wins_witness :
  (0 <= 100 < 300)%Z
  /\ user (store (run [CallFetch; Elapse 100; CallRefresh 7%Z; Elapse 500;
                       Elapse (300 - 100)] (idle initialState)))
     = Some MockData.mockUser.
Proof.
  split; [lia|].
  assert (Hd : (0 <= 100 < 300)%Z) by lia.
  exact (proj1 (proj2 (proj2 (proj2 (proj2
           (C3_last_settled_wins initialState 100 7%Z Hd)))))).
Defined.

(** * More properties of the store *)

(** ** Loads: what each outcome writes *)

Lemma Qc_of_Z_compare (x y : Z) : (Qc_of_Z x ?= Qc_of_Z y)%Qc = (x ?= y)%Z.
Proof.
  unfold Qccompare, Qc_of_Z. simpl. unfold Qcompare. simpl.
  by rewrite !Z.mul_1_r.
Qed.

Lemma Qc_of_Z_plus (x y : Z) : (Qc_of_Z x + Qc_of_Z y)%Qc = Qc_of_Z (x + y).
Proof.
  apply Qc_is_canon. unfold Qcplus, Qc_of_Z. simpl.
  rewrite Qred_correct. unfold Qplus, Qeq. simpl. lia.
Qed.

Lemma add_of_Z (x y : Z) : Js.add (Js.of_Z x) (Js.of_Z y) = Js.of_Z (x + y).
Proof. unfold Js.add, Js.of_Z. by rewrite Qc_of_Z_plus. Qed.

Lemma ltb_of_Z (x y : Z) : Js.ltb (Js.of_Z x) (Js.of_Z y) = (x <? y)%Z.
Proof.
  unfold Js.ltb, Js.of_Z. simpl. rewrite Qc_of_Z_compare.
  unfold Z.ltb. by destruct (x ?= y)%Z.
Qed.

Lemma leb_of_Z (x y : Z) : Js.leb (Js.of_Z x) (Js.of_Z y) = (x <=? y)%Z.
Proof.
  unfold Js.leb, Js.of_Z. simpl. rewrite Qc_of_Z_compare.
  unfold Z.leb. by destruct (x ?= y)%Z.
Qed.

Lemma gtb_of_Z (x y : Z) : Js.gtb (Js.of_Z x) (Js.of_Z y) = (y <? x)%Z.
Proof.
  unfold Js.gtb, Js.of_Z. simpl. rewrite Qc_of_Z_compare.
  unfold Z.ltb. rewrite (Z.compare_antisym x y). by destruct (x ?= y)%Z.
Qed.

(** X1.  When the load that [refreshDashboard()] awaits is rejected, the
    call ends normally, [error] is the message of the [Error] (or
    ['Failed to refresh dashboard']), [isRefreshing] is false, and nothing
    else moves: the seven snapshot fields, [isLoading], the preferences
    and the pending rewards are those before the call. *)
Theorem X1_refresh_failure_keeps_data (s : DashboardState) (reason : thrown)
    (bonus : number) :
  let s' := refreshDashboard (Rejected reason) bonus s in
  (refreshDashboard_try (Rejected reason) bonus (refreshDashboard_call s)).1
    = inl tt
  /\ s' = mkState (user s) (activeQuests s) (activities s)
            (upcomingClasses s) (leaderboard s) (featuredBadges s)
            (weeklyStats s) (isLoading s) false
            (Some (errorMessage reason "Failed to refresh dashboard"))
            (filters s) (showCompletedQuests s) (activityLimit s)
            (pendingXPGain s) (pendingCoinsGain s)
  /\ same_snapshot s s'
  /\ error (refreshDashboard (Rejected OtherValue) bonus s)
     = Some "Failed to refresh dashboard".
Proof. destruct s, reason; repeat split. Qed.

(** X2.  A refresh that succeeds replaces [user], [activeQuests],
    [activities] and [upcomingClasses], clears [error] and [isRefreshing],
    and leaves [leaderboard], [featuredBadges], [weeklyStats], [isLoading],
    the preferences and the pending rewards as they were.  The user it
    stores is [mockUser] with [stats.currentXP] raised by the bonus; for a
    bonus that [Math.floor(Math.random() * 50)] can give, an integer from 0
    to 49, the new [currentXP] is at least the old one and stays below
    [requiredXP]. *)
Theorem X2_refresh_success (s : DashboardState) (b : Z) :
  (0 <= b < 50)%Z ->
  let s' := refreshDashboard Fulfilled (Js.of_Z b) s in
  s' = mkState (Some (refreshedUser (Js.of_Z b))) MockData.mockActiveQuests
         MockData.mockActivities MockData.mockUpcomingClasses
         (leaderboard s) (featuredBadges s) (weeklyStats s)
         (isLoading s) false None
         (filters s) (showCompletedQuests s) (activityLimit s)
         (pendingXPGain s) (pendingCoinsGain s)
  /\ (exists u,
        user s' = Some u
        /\ u.(DashboardUser.id) = MockData.mockUser.(DashboardUser.id)
        /\ u.(DashboardUser.stats).(UserStats.level)
           = MockData.mockUserStats.(UserStats.level)
        /\ u.(DashboardUser.stats).(UserStats.currentXP) = Js.of_Z (2450 + b)
        /\ Js.leb MockData.mockUserStats.(UserStats.currentXP)
             u.(DashboardUser.stats).(UserStats.currentXP) = true
        /\ Js.ltb u.(DashboardUser.stats).(UserStats.currentXP)
             u.(DashboardUser.stats).(UserStats.requiredXP) = true).
Proof.
  intros Hb s'. split; [by destruct s|].
  exists (refreshedUser (Js.of_Z b)). split; [by destruct s|].
  split; [done|]. split; [done|].
  assert (E : (refreshedUser (Js.of_Z b)).(DashboardUser.stats).(UserStats.currentXP)
              = Js.of_Z (2450 + b)) by apply add_of_Z.
  rewrite E. split; [done|]. split.
  - change (Js.leb (Js.of_Z 2450) (Js.of_Z (2450 + b)) = true).
    rewrite leb_of_Z. apply Z.leb_le. lia.
  - change (Js.ltb (Js.of_Z (2450 + b)) (Js.of_Z 3000) = true).
    rewrite ltb_of_Z. apply Z.ltb_lt. lia.
Qed.

Lemma X2_refresh_success_witness :
  (0 <= 49 < 50)%Z
  /\ refreshDashboard Fulfilled (Js.of_Z 49) initialState
     = mkState (Some (refreshedUser (Js.of_Z 49))) MockData.mockActiveQuests
         MockData.mockActivities MockData.mockUpcomingClasses
         [] [] None false false None ∅ false 5%Z 0%Z 0%Z.
Proof.
  split; [lia|].
  assert (Hb : (0 <= 49 < 50)%Z) by lia.
  exact (proj1 (X2_refresh_success initialState 49 Hb)).
Defined.

(** X3.  A fetch that succeeds writes the whole mock snapshot, [isLoading
    = false] and [error = null], and keeps only [isRefreshing], the
    preferences and the pending rewards of the state it was called on.
    Fetching is therefore idempotent; a fetch after a refresh leaves what
    the fetch alone leaves (the refresh's XP bonus is gone); and a fetch
    after [updateQuestProgress] undoes the update. *)
Theorem X3_fetch_success_idempotent (s : DashboardState) (bonus : number)
    (questId : string) (progress : number) :
  fetchDashboardData Fulfilled s
  = mkState (Some MockData.mockUser) MockData.mockActiveQuests
      MockData.mockActivities MockData.mockUpcomingClasses
      MockData.mockLeaderboard MockData.mockFeaturedBadges
      (Some MockData.mockWeeklyStats) false (isRefreshing s) None
      (filters s) (showCompletedQuests s) (activityLimit s)
      (pendingXPGain s) (pendingCoinsGain s)
  /\ fetchDashboardData Fulfilled (fetchDashboardData Fulfilled s)
     = fetchDashboardData Fulfilled s
  /\ fetchDashboardData Fulfilled (refreshDashboard Fulfilled bonus s)
     = setRefreshing false (fetchDashboardData Fulfilled s)
  /\ fetchDashboardData Fulfilled (updateQuestProgress questId progress
                                     (fetchDashboardData Fulfilled s))
     = fetchDashboardData Fulfilled s.
Proof. destruct s. repeat split. Qed.

(** X4.  Only the calls clear [error]; a load that succeeds does not.  So
    when [fetchDashboardData()] and [refreshDashboard()] are both in
    flight, the fetch is rejected and the refresh then succeeds, the state
    holds the refresh's data together with the fetch's error message. *)
Theorem X4_success_keeps_error (s : DashboardState) (reason : thrown)
    (bonus : number) :
  error (fetchDashboardData_resume Fulfilled s) = error s
  /\ error (refreshDashboard_resume Fulfilled bonus s) = error s
  /\ let s' :=
       refreshDashboard_resume Fulfilled bonus
         (fetchDashboardData_resume (Rejected reason)
            (refreshDashboard_call (fetchDashboardData_call s))) in
     error s' = Some (errorMessage reason "Failed to fetch dashboard data")
     /\ user s' = Some (refreshedUser bonus)
     /\ isLoading s' = false
     /\ isRefreshing s' = false.
Proof. destruct s, reason; repeat split. Qed.

(** ** Loads in time *)

(** X5.  From the call of [fetchDashboardData()] until 800 ms later the
    state has [isLoading = true], [error = null], its old snapshot, and one
    timer pending; from 800 ms on the load has settled: no timer is left
    and the state is that of a successful fetch. *)
Theorem X5_loading_window (s : DashboardState) (t : Z) :
  (0 <= t)%Z ->
  let L := run [CallFetch; Elapse t] (idle s) in
  ((t < 800)%Z ->
     isLoading (store L) = true
     /\ error (store L) = None
     /\ same_snapshot s (store L)
     /\ timers L = [(800%Z, ResumeFetch)])
  /\ ((800 <= t)%Z ->
        timers L = []
        /\ store L = fetchDashboardData Fulfilled s).
Proof.
  intros Ht L. subst L. unfold run, idle. split; intros Ht'.
  - run_loop. by destruct s.
  - run_loop. done.
Qed.

Lemma X5_loading_window_witness :
  (0 <= 799)%Z /\ (799 < 800)%Z
  /\ isLoading (store (run [CallFetch; Elapse 799] (idle initialState))) = true.
Proof.
  assert (H0 : (0 <= 799)%Z) by lia.
  assert (H1 : (799 < 800)%Z) by lia.
  split; [exact H0|]. split; [exact H1|].
  exact (proj1 (proj1 (X5_loading_window initialState 799 H0) H1)).
Defined.

(** X6.  [resetStore()] puts every data field back to its initial value,
    but it does not cancel a load in flight: when it is called [d] ms
    after [fetchDashboardData()], with [d < 800], the fetch still settles at
    800 ms and fills the store that was reset with the mock snapshot. *)
Theorem X6_reset_does_not_cancel (s : DashboardState) (d : Z) :
  (0 <= d < 800)%Z ->
  resetStore s = initialState
  /\ let L1 := run [CallFetch; Elapse d; CallSync resetStore] (idle s) in
     let L2 := run [Elapse (800 - d)] L1 in
     store L1 = initialState
     /\ timers L1 = [(800%Z, ResumeFetch)]
     /\ timers L2 = []
     /\ store L2 = fetchDashboardData_resume Fulfilled initialState
     /\ user (store L2) = Some MockData.mockUser
     /\ activeQuests (store L2) = MockData.mockActiveQuests.
Proof.
  intros Hd. split; [by destruct s|]. intros L1 L2.
  assert (E1 : L1 = mkLoop d initialState [(800%Z, ResumeFetch)]).
  { subst L1. unfold run, idle. run_loop. f_equal. by destruct s. }
  assert (E2 : L2 = mkLoop 800 (fetchDashboardData_resume Fulfilled initialState) []).
  { subst L2. rewrite E1. unfold run. run_loop. f_equal. lia. }
  rewrite E1, E2. by repeat split.
Qed.

Lemma X6_reset_does_not_cancel_witness :
  (0 <= 300 < 800)%Z
  /\ user (store (run [CallFetch; Elapse 300; CallSync resetStore;
                       Elapse (800 - 300)] (idle loaded)))
     = Some MockData.mockUser.
Proof.
  assert (Hd : (0 <= 300 < 800)%Z) by lia.
  split; [exact Hd|].
  exact (proj1 (proj2 (proj2 (proj2 (proj2 (proj2
           (X6_reset_does_not_cancel loaded 300 Hd))))))).
Defined.

(** X7.  [isLoading] is one flag, not a count of the loads in flight:
    when [fetchDashboardData()] is called again [d] ms after a first call,
    with [0 < d < 800], the first load to settle sets [isLoading] to false
    while the second is still pending. *)
Theorem X7_loading_flag_not_counted (s : DashboardState) (d : Z) :
  (0 < d < 800)%Z ->
  let L := run [CallFetch; Elapse d; CallFetch; Elapse (800 - d)] (idle s) in
  clock L = 800%Z
  /\ isLoading (store L) = false
  /\ timers L = [((d + 800)%Z, ResumeFetch)].
Proof.
  intros Hd L. subst L. unfold run, idle. run_loop.
  repeat split; [lia|by destruct s].
Qed.

Lemma X7_loading_flag_not_counted_witness :
  (0 < 100 < 800)%Z
  /\ isLoading (store (run [CallFetch; Elapse 100; CallFetch; Elapse (800 - 100)]
                         (idle initialState))) = false.
Proof.
  assert (Hd : (0 < 100 < 800)%Z) by lia.
  split; [exact Hd|].
  exact (proj1 (proj2 (X7_loading_flag_not_counted initialState 100 Hd))).
Defined.

Lemma elem_of_schedule due k ts (x : Z * continuation) :
  x ∈ schedule due k ts <-> x = (due, k) \/ x ∈ ts.
Proof.
  induction ts as [|[d k'] ts IH]; simpl.
  - rewrite list_elem_of_singleton, elem_of_nil. tauto.
  - destruct (d <=? due)%Z.
    + rewrite !elem_of_cons, IH. tauto.
    + rewrite !elem_of_cons. tauto.
Qed.

Lemma resume_flags k s :
  match k with
  | ResumeFetch =>
      isLoading (resume k s) = false
      /\ isRefreshing (resume k s) = isRefreshing s
  | ResumeRefresh _ =>
      isLoading (resume k s) = isLoading s
      /\ isRefreshing (resume k s) = false
  end.
Proof. by destruct k, s. Qed.

Lemma fire_flags_backed now ts s :
  flags_backed s ts ->
  flags_backed (fire now ts s).1 (fire now ts s).2.
Proof.
  revert s. induction ts as [|[d k] ts IH]; intros s Hs; simpl; [done|].
  destruct (d <=? now)%Z; [|done].
  apply IH. destruct Hs as [Hl Hr].
  pose proof (resume_flags k s) as Hk. destruct k as [|bonus].
  - destruct Hk as [Hk1 Hk2]. split; [by rewrite Hk1|].
    rewrite Hk2. intros H. destruct (Hr H) as (due & b & Hin).
    exists due, b. apply elem_of_cons in Hin. by destruct Hin.
  - destruct Hk as [Hk1 Hk2]. split; [|by rewrite Hk2].
    rewrite Hk1. intros H. destruct (Hl H) as (due & Hin).
    exists due. apply elem_of_cons in Hin. by destruct Hin.
Qed.

Lemma exec_flags_backed L st :
  keeps_flags st ->
  flags_backed (store L) (timers L) ->
  flags_backed (store (exec L st)) (timers (exec L st)).
Proof.
  intros Hst [Hl Hr]. destruct st as [|bonus|action|ms]; simpl.
  - split.
    + intros _. eexists. apply elem_of_schedule. by left.
    + intros H. destruct Hr as (due & b & Hin); [by destruct (store L)|].
      exists due, b. apply elem_of_schedule. by right.
  - split.
    + intros H. destruct Hl as (due & Hin); [by destruct (store L)|].
      exists due. apply elem_of_schedule. by right.
    + intros _. do 2 eexists. apply elem_of_schedule. by left.
  - unfold flags_backed. destruct (Hst (store L)) as [E1 E2].
    rewrite E1, E2. by split.
  - pose proof (fire_flags_backed (clock L + ms) (timers L) (store L)
                  (conj Hl Hr)) as H.
    by destruct (fire _ _ _).
Qed.

(** X8.  No spinner is left turning: in any run made of calls of the two
    loads, of time passing, and of synchronous actions that write neither
    flag, started on a store whose flags are down and that has nothing in
    flight, [isLoading] is true only while a fetch is pending and
    [isRefreshing] only while a refresh is pending; once no timer is left
    both flags are false. *)
Theorem X8_flags_backed_by_loads (script : list step) (s : DashboardState) :
  Forall keeps_flags script ->
  isLoading s = false ->
  isRefreshing s = false ->
  let L := run script (idle s) in
  flags_backed (store L) (timers L)
  /\ (timers L = [] -> isLoading (store L) = false /\ isRefreshing (store L) = false).
Proof.
  intros Hscript Hl Hr L.
  assert (H : flags_backed (store L) (timers L)).
  { subst L. unfold run.
    assert (H0 : flags_backed (store (idle s)) (timers (idle s))).
    { split; simpl; intros H; congruence. }
    revert H0. generalize (idle s).
    induction Hscript as [|st script Hst _ IH]; intros L0 H0; simpl; [done|].
    by apply IH, exec_flags_backed. }
  split; [done|]. intros Hts. rewrite Hts in H. destruct H as [H1 H2].
  split.
  - destruct (isLoading (store L)); [|done].
    destruct H1 as [due Hin]; [done|]. by apply elem_of_nil in Hin.
  - destruct (isRefreshing (store L)); [|done].
    destruct H2 as (due & b & Hin); [done|]. by apply elem_of_nil in Hin.
Qed.

Lemma X8_flags_backed_by_loads_witness :
  let script := [CallFetch; Elapse 100; CallRefresh 7%Z;
                 CallSync (updateQuestProgress "quest_001" 5%Z);
                 Elapse 800] in
  (Forall keeps_flags script
   /\ isLoading initialState = false
   /\ isRefreshing initialState = false)
  /\ (isLoading (store (run script (idle initialState))) = false
      /\ isRefreshing (store (run script (idle initialState))) = false).
Proof.
  intros script.
  assert (Hs : Forall keeps_flags script).
  { repeat constructor; by destruct s. }
  split; [by repeat split|].
  exact (proj2 (X8_flags_backed_by_loads script initialState Hs eq_refl eq_refl)
           eq_refl).
Defined.

(** ** Synchronous actions *)

(** X9.  [updateQuestProgress] with an id that no quest of [activeQuests]
    has changes nothing: the state after the call is the state before. *)
Theorem X9_update_unknown_id (s : DashboardState) (questId : string)
    (progress : number) :
  (forall quest, quest ∈ activeQuests s -> quest.(DashboardQuest.id) <> questId) ->
  updateQuestProgress questId progress s = s.
Proof.
  intros Hnone.
  assert (E : map (updateQuest questId progress) (activeQuests s) = activeQuests s).
  { rewrite <- (list_fmap_id (activeQuests s)) at 2.
    apply list_fmap_ext. intros i q Hq. apply updateQuest_other, Hnone.
    by eapply list_elem_of_lookup_2. }
  destruct s. unfold updateQuestProgress, set_with, set. simpl in *.
  by rewrite E.
Qed.

Lemma X9_update_unknown_id_witness :
  (forall quest, quest ∈ activeQuests loaded ->
                 quest.(DashboardQuest.id) <> "quest_999")
  /\ updateQuestProgress "quest_999" 3%Z loaded = loaded.
Proof.
  assert (H : forall quest, quest ∈ activeQuests loaded ->
                            quest.(DashboardQuest.id) <> "quest_999").
  { intros quest Hq. change (quest ∈ MockData.mockActiveQuests) in Hq.
    unfold MockData.mockActiveQuests in Hq.
    repeat (apply elem_of_cons in Hq as [->|Hq]; [discriminate|]).
    by apply elem_of_nil in Hq. }
  split; [exact H|].
  exact (X9_update_unknown_id loaded "quest_999" 3%Z H).
Defined.

Lemma updateQuest_idem questId progress quest :
  updateQuest questId progress (updateQuest questId progress quest)
  = updateQuest questId progress quest.
Proof.
  unfold updateQuest.
  destruct (String.eqb quest.(DashboardQuest.id) questId) eqn:E; simpl;
    rewrite E; [|done].
  unfold withProgress. simpl.
  by destruct (Js.geb progress _).
Qed.

Lemma updateQuest_progress_overwrite questId p1 p2 quest :
  (updateQuest questId p2 (updateQuest questId p1 quest)).(DashboardQuest.progress)
  = (updateQuest questId p2 quest).(DashboardQuest.progress).
Proof.
  unfold updateQuest.
  destruct (String.eqb quest.(DashboardQuest.id) questId) eqn:E; simpl;
    by rewrite E.
Qed.

(** X10.  [updateQuestProgress] is idempotent: the same call twice leaves
    what one call leaves.  Of two calls on the same id the later one
    decides [progress] ([current], [percentage]; [target] never changes),
    whatever the earlier one wrote. *)
Theorem X10_update_idempotent (s : DashboardState) (questId : string)
    (p1 p2 : number) (i : nat) :
  updateQuestProgress questId p1 (updateQuestProgress questId p1 s)
  = updateQuestProgress questId p1 s
  /\ progressAt i (updateQuestProgress questId p2 (updateQuestProgress questId p1 s))
     = progressAt i (updateQuestProgress questId p2 s)
  /\ QuestProgress.target <$> progressAt i (updateQuestProgress questId p1 s)
     = QuestProgress.target <$> progressAt i s.
Proof.
  split; [|split].
  - assert (E : map (updateQuest questId p1)
                  (map (updateQuest questId p1) (activeQuests s))
                = map (updateQuest questId p1) (activeQuests s)).
    { rewrite map_map. apply map_ext. intros q. apply updateQuest_idem. }
    destruct s. unfold updateQuestProgress, set_with, set. simpl in *.
    by rewrite E.
  - unfold progressAt. rewrite !lookup_updateQuestProgress.
    destruct (activeQuests s !! i) as [q|]; simpl; [|done].
    by rewrite updateQuest_progress_overwrite.
  - unfold progressAt. rewrite lookup_updateQuestProgress.
    destruct (activeQuests s !! i) as [q|]; simpl; [|done].
    unfold updateQuest. by destruct (String.eqb _ _).
Qed.

(** X11.  [toggleShowCompletedQuests()] twice is the identity on the
    state, and one call changes [showCompletedQuests] and nothing else. *)
Theorem X11_toggle_involution (s : DashboardState) :
  toggleShowCompletedQuests (toggleShowCompletedQuests s) = s
  /\ toggleShowCompletedQuests s
     = mkState (user s) (activeQuests s) (activities s)
         (upcomingClasses s) (leaderboard s) (featuredBadges s)
         (weeklyStats s) (isLoading s) (isRefreshing s) (error s)
         (filters s) (negb (showCompletedQuests s)) (activityLimit s)
         (pendingXPGain s) (pendingCoinsGain s).
Proof.
  destruct s as [u q a c l b w ld rf er f sc al px pc].
  unfold toggleShowCompletedQuests, set_with, set. simpl.
  by rewrite negb_involutive.
Qed.

(** X12.  Two [setFilters] calls in a row are one call with the merged
    object, the later keys winning; a call repeated changes nothing more;
    and [setFilters] never removes a key: every key of the filters is still
    a key after the call. *)
Theorem X12_setFilters_composes (s : DashboardState) (p q : DashboardFilters) :
  setFilters q (setFilters p s) = setFilters (q ∪ p) s
  /\ setFilters p (setFilters p s) = setFilters p s
  /\ dom (filters s) ⊆ dom (filters (setFilters p s))
  /\ dom (filters (setFilters p s)) = dom p ∪ dom (filters s).
Proof.
  destruct s as [u qs a c l b w ld rf er f sc al px pc].
  unfold setFilters, set_with, set. simpl.
  split; [by rewrite (assoc_L (∪))|]. split.
  { by rewrite (assoc_L (∪)), (idemp (∪) p). }
  rewrite dom_union_L. split; [set_solver|done].
Qed.

(** ** What is persisted *)

Lemma resume_partialize k s : partialize (resume k s) = partialize s.
Proof. by destruct k, s. Qed.

Lemma fire_partialize now ts s : partialize (fire now ts s).1 = partialize s.
Proof.
  revert s. induction ts as [|[d k] ts IH]; intros s; simpl; [done|].
  destruct (d <=? now)%Z; [|done]. by rewrite IH, resume_partialize.
Qed.

Lemma exec_partialize L st :
  loads_only st -> partialize (store (exec L st)) = partialize (store L).
Proof.
  destruct st as [|bonus|action|ms]; simpl; intros Hst.
  - by destruct (store L).
  - by destruct (store L).
  - done.
  - pose proof (fire_partialize (clock L + ms) (timers L) (store L)) as H.
    by destruct (fire _ _ _).
Qed.

(** X13.  The slice that [persist] writes ([showCompletedQuests],
    [activityLimit], [filters]) is the same after any run of loads and of
    time passing, whatever settles in it.  No data action touches it
    either: the setters of the snapshot and of the flags,
    [updateQuestProgress], [addActivity] and the pending rewards leave it
    as it is.  It changes with [setFilters], [toggleShowCompletedQuests]
    and [setActivityLimit], and [resetStore] puts it back to the initial
    preferences. *)
Theorem X13_persisted_slice (script : list step) (L : Loop) :
  Forall loads_only script ->
  partialize (store (run script L)) = partialize (store L)
  /\ (forall s load bonus,
        partialize (fetchDashboardData load s) = partialize s
        /\ partialize (refreshDashboard load bonus s) = partialize s)
  /\ (forall s questId progress activity amount,
        partialize (updateQuestProgress questId progress s) = partialize s
        /\ partialize (addActivity activity s) = partialize s
        /\ partialize (addPendingXP amount s) = partialize s
        /\ partialize (addPendingCoins amount s) = partialize s
        /\ partialize (clearPendingRewards s) = partialize s)
  /\ (forall s u quests acts classes entries badges stats flag err,
        partialize (setUser u s) = partialize s
        /\ partialize (setActiveQuests quests s) = partialize s
        /\ partialize (setActivities acts s) = partialize s
        /\ partialize (setUpcomingClasses classes s) = partialize s
        /\ partialize (setLeaderboard entries s) = partialize s
        /\ partialize (setFeaturedBadges badges s) = partialize s
        /\ partialize (setWeeklyStats stats s) = partialize s
        /\ partialize (setLoading flag s) = partialize s
        /\ partialize (setRefreshing flag s) = partialize s
        /\ partialize (setError err s) = partialize s)
  /\ (forall s p limit,
        partialize (setFilters p s)
        = Persisted.mk (showCompletedQuests s) (activityLimit s) (p ∪ filters s)
        /\ partialize (toggleShowCompletedQuests s)
           = Persisted.mk (negb (showCompletedQuests s)) (activityLimit s)
               (filters s)
        /\ partialize (setActivityLimit limit s)
           = Persisted.mk (showCompletedQuests s) limit (filters s)
        /\ partialize (resetStore s) = Persisted.mk false 5%Z ∅).
Proof.
  intros Hscript. split.
  { unfold run. revert L.
    induction Hscript as [|st script Hst _ IH]; intros L; simpl; [done|].
    by rewrite IH, exec_partialize. }
  split. { intros s [|reason] bonus; by destruct s. }
  split. { intros s. intros. by destruct s. }
  split. { intros s. intros. by destruct s. }
  intros s. intros. by destruct s.
Qed.

Lemma X13_persisted_slice_witness :
  let script := [CallFetch; Elapse 100; CallRefresh 7%Z; Elapse 900] in
  Forall loads_only script
  /\ partialize (store (run script (idle (setActivityLimit 8%Z initialState))))
     = partialize (setActivityLimit 8%Z initialState).
Proof.
  intros script.
  assert (Hs : Forall loads_only script) by (repeat constructor).
  split; [exact Hs|].
  exact (proj1 (X13_persisted_slice script
                  (idle (setActivityLimit 8%Z initialState)) Hs)).
Defined.

(** ** Selectors *)

Lemma updateQuest_type questId progress quest :
  (updateQuest questId progress quest).(DashboardQuest.type)
  = quest.(DashboardQuest.type).
Proof. unfold updateQuest. by destruct (String.eqb _ _). Qed.

Lemma updateQuest_isExpiringSoon questId progress quest :
  (updateQuest questId progress quest).(DashboardQuest.isExpiringSoon)
  = quest.(DashboardQuest.isExpiringSoon).
Proof. unfold updateQuest. by destruct (String.eqb _ _). Qed.

Lemma updateQuest_in_progress questId progress quest :
  (updateQuest questId progress quest).(DashboardQuest.status) = in_progress ->
  quest.(DashboardQuest.status) = in_progress.
Proof. rewrite updateQuest_status. by destruct (_ && _). Qed.

(** X14.  [updateQuestProgress] never adds a quest to
    [selectInProgressQuests]: the ids selected after the call are, in
    order, among the ids selected before.  When the new value reaches the
    target of every quest with that id, none of them is selected any
    more. *)
Theorem X14_in_progress_shrinks (s : DashboardState) (questId : string)
    (progress : number) :
  (DashboardQuest.id <$> selectInProgressQuests
                           (updateQuestProgress questId progress s))
    `sublist_of` (DashboardQuest.id <$> selectInProgressQuests s)
  /\ ((forall quest, quest ∈ activeQuests s ->
         quest.(DashboardQuest.id) = questId ->
         Js.geb progress quest.(DashboardQuest.progress).(QuestProgress.target)
           = true) ->
      forall quest,
        quest ∈ selectInProgressQuests (updateQuestProgress questId progress s) ->
        quest.(DashboardQuest.id) <> questId).
Proof.
  unfold selectInProgressQuests. rewrite activeQuests_updateQuestProgress.
  split.
  - induction (activeQuests s) as [|q l IH]; simpl; [done|].
    rewrite !filter_cons.
    destruct (decide ((updateQuest questId progress q).(DashboardQuest.status)
                      = in_progress)) as [Hq|Hq].
    + rewrite decide_True by by eapply updateQuest_in_progress.
      simpl. rewrite updateQuest_id. by apply sublist_skip.
    + destruct (decide (q.(DashboardQuest.status) = in_progress)); [|done].
      simpl. by apply sublist_cons.
  - intros Hreach quest Hin Hid.
    apply list_elem_of_filter in Hin as [Hst Hin].
    apply list_elem_of_fmap in Hin as (q & -> & Hq).
    rewrite updateQuest_id in Hid.
    rewrite updateQuest_status in Hst.
    rewrite (Hreach q Hq Hid) in Hst.
    destruct (String.eqb_spec q.(DashboardQuest.id) questId); [|done].
    simpl in Hst. discriminate.
Qed.

Lemma filter_updateQuest_ids (P : DashboardQuest.t -> Prop)
    `{!forall q, Decision (P q)} questId progress (l : list DashboardQuest.t) :
  (forall q, P (updateQuest questId progress q) <-> P q) ->
  map DashboardQuest.id (filter P (map (updateQuest questId progress) l))
  = map DashboardQuest.id (filter P l).
Proof.
  intros HP. induction l as [|q l IH]; [done|].
  cbn [map]. rewrite !filter_cons.
  destruct (decide (P (updateQuest questId progress q))) as [Hq|Hq];
    destruct (decide (P q)) as [Hq'|Hq'].
  - cbn [map]. by rewrite updateQuest_id, IH.
  - destruct Hq'. by apply (proj1 (HP q)).
  - destruct Hq. by apply (proj2 (HP q)).
  - done.
Qed.

(** X15.  [selectDailyQuests] and [selectExpiringQuests] select the same
    quests, by id and in the same order, before and after any
    [updateQuestProgress]: a progress update changes neither the type of a
    quest nor its [isExpiringSoon] flag. *)
Theorem X15_daily_and_expiring_stable (s : DashboardState) (questId : string)
    (progress : number) :
  DashboardQuest.id <$> selectDailyQuests (updateQuestProgress questId progress s)
  = DashboardQuest.id <$> selectDailyQuests s
  /\ DashboardQuest.id <$> selectExpiringQuests
                             (updateQuestProgress questId progress s)
     = DashboardQuest.id <$> selectExpiringQuests s.
Proof.
  unfold selectDailyQuests, selectExpiringQuests.
  rewrite activeQuests_updateQuestProgress. split.
  - apply (filter_updateQuest_ids (fun q => q.(DashboardQuest.type) = daily)).
    intros q. by rewrite updateQuest_type.
  - apply (filter_updateQuest_ids
             (fun q => q.(DashboardQuest.isExpiringSoon) = Some true)).
    intros q. by rewrite updateQuest_isExpiringSoon.
Qed.

Lemma toIntegerOrInfinity_of_Z (n : Z) :
  JsArray.toIntegerOrInfinity (Js.of_Z n) = JsArray.Int n.
Proof. unfold JsArray.toIntegerOrInfinity. simpl. by rewrite Z.quot_1_r. Qed.

Lemma slice0_prefix {A} (l : list A) (end_ : number) :
  JsArray.slice0 l end_ `prefix_of` l.
Proof. unfold JsArray.slice0. eexists. symmetry. apply take_drop. Qed.

Lemma slice0_nonneg {A} (l : list A) (n : Z) :
  (0 <= n)%Z -> JsArray.slice0 l (Js.of_Z n) = take (Z.to_nat n) l.
Proof.
  intros Hn. unfold JsArray.slice0, JsArray.final.
  rewrite toIntegerOrInfinity_of_Z.
  destruct (Z.ltb_spec n 0); [lia|].
  destruct (Z.le_ge_cases n (Z.of_nat (length l))).
  - by rewrite Z.min_l.
  - rewrite Z.min_r, Nat2Z.id by done.
    rewrite !take_ge; [done|lia..].
Qed.

Lemma slice0_neg {A} (l : list A) (n : Z) :
  (n < 0)%Z ->
  JsArray.slice0 l (Js.of_Z n) = take (length l - Z.to_nat (- n)) l.
Proof.
  intros Hn. unfold JsArray.slice0, JsArray.final.
  rewrite toIntegerOrInfinity_of_Z.
  destruct (Z.ltb_spec n 0); [|lia]. f_equal. lia.
Qed.

(** [slice(0, 20)], as [addActivity] takes it, is [take 20]. *)
Lemma slice0_20 {A} (l : list A) : JsArray.slice0 l 20%Z = take 20 l.
Proof. by rewrite slice0_nonneg. Qed.

(** X16.  [selectLimitedActivities] returns a prefix of the log, whatever
    [activityLimit] holds.  For a limit that is an integer [n >= 0] it is
    the first [n] activities (all of them when [n] is at least the length
    of the log); a negative integer limit [-k] does not give an empty
    list but all activities except the last [k]; a [NaN] limit gives the
    empty list and an infinite limit the whole log. *)
Theorem X16_limited_activities (s : DashboardState) (n : Z) :
  selectLimitedActivities s `prefix_of` activities s
  /\ (length (selectLimitedActivities s) <= length (activities s))%nat
  /\ (activityLimit s = Js.of_Z n ->
      selectLimitedActivities s
      = if (0 <=? n)%Z then take (Z.to_nat n) (activities s)
        else take (length (activities s) - Z.to_nat (- n)) (activities s))
  /\ (activityLimit s = Js.of_Z n -> (Z.of_nat (length (activities s)) <= n)%Z ->
      selectLimitedActivities s = activities s)
  /\ (activityLimit s = Js.NaN -> selectLimitedActivities s = [])
  /\ (activityLimit s = Js.PInf -> selectLimitedActivities s = activities s).
Proof.
  unfold selectLimitedActivities.
  split; [apply slice0_prefix|]. split.
  { apply prefix_length, slice0_prefix. }
  split.
  { intros ->. destruct (Z.leb_spec 0 n).
    - by apply slice0_nonneg.
    - by apply slice0_neg. }
  split.
  { intros -> Hn. rewrite slice0_nonneg by lia. apply take_ge. lia. }
  split.
  { intros ->. unfold JsArray.slice0, JsArray.final. simpl.
    by rewrite Z.min_l by lia. }
  intros ->. unfold JsArray.slice0, JsArray.final. simpl. by rewrite take_ge.
Qed.

(** Scenario C of the specification: a limit of 5 on 8 activities. *)
Example scenario_C :
  selectLimitedActivities
    (setActivityLimit 5%Z (setActivities (numbered <$> seq 1 8) initialState))
  = numbered <$> seq 1 5.
Proof. vm_compute. reflexivity. Qed.

(** X17.  With an integer [activityLimit] of at least 1, the activity
    that [addActivity] has just added is the first one that
    [selectLimitedActivities] returns, and the selection has
    [min(limit, 20, previous length + 1)] entries. *)
Theorem X17_new_activity_is_shown (s : DashboardState)
    (activity : DashboardActivity.t) (n : Z) :
  activityLimit s = Js.of_Z n ->
  (1 <= n)%Z ->
  selectLimitedActivities (addActivity activity s) !! 0%nat = Some activity
  /\ length (selectLimitedActivities (addActivity activity s))
     = Nat.min (Z.to_nat n) (Nat.min 20 (S (length (activities s)))).
Proof.
  intros Hlimit Hn. unfold selectLimitedActivities.
  assert (E : activityLimit (addActivity activity s) = Js.of_Z n)
    by (by destruct s).
  rewrite E, activities_addActivity, slice0_nonneg by lia.
  split.
  - rewrite lookup_take_lt by lia. done.
  - rewrite !length_take. simpl. lia.
Qed.

Lemma X17_new_activity_is_shown_witness :
  (activityLimit loaded = Js.of_Z 5 /\ (1 <= 5)%Z)
  /\ selectLimitedActivities (addActivity (numbered 9) loaded) !! 0%nat
     = Some (numbered 9).
Proof.
  assert (Hn : (1 <= 5)%Z) by lia.
  split; [split; [reflexivity|exact Hn]|].
  exact (proj1 (X17_new_activity_is_shown loaded (numbered 9) 5 eq_refl Hn)).
Defined.

Lemma find_first {A} (f : A -> bool) (l : list A) :
  match find f l with
  | Some x =>
      exists i, l !! i = Some x /\ f x = true
                /\ forall j y, (j < i)%nat -> l !! j = Some y -> f y = false
  | None => forall y, y ∈ l -> f y = false
  end.
Proof.
  induction l as [|a l IH]; simpl.
  - intros y Hy. by apply elem_of_nil in Hy.
  - destruct (f a) eqn:Ha.
    + exists 0%nat. repeat split; [done|]. intros j y Hj. lia.
    + destruct (find f l) as [x|].
      * destruct IH as (i & Hi & Hx & Hbefore). exists (S i).
        repeat split; [done..|].
        intros [|j] y Hj Hy; simpl in Hy; [by simplify_eq|].
        apply (Hbefore j); [lia|done].
      * intros y Hy. apply elem_of_cons in Hy as [->|Hy]; [done|by apply IH].
Qed.

(** X18.  [selectCurrentUserRank] returns the first entry of the
    leaderboard that is flagged [isCurrentUser]: every entry before it is
    not flagged; it returns nothing exactly when no entry is flagged.  A
    refresh, whatever its outcome, leaves its result as it was, and after
    a successful fetch it is the entry of [user_001]. *)
Theorem X18_current_user_rank (s : DashboardState) :
  let flagged (entry : LeaderboardEntry.t) :=
    entry.(LeaderboardEntry.isCurrentUser) = Some true in
  match selectCurrentUserRank s with
  | Some entry =>
      exists i, leaderboard s !! i = Some entry /\ flagged entry
                /\ forall j e, (j < i)%nat -> leaderboard s !! j = Some e ->
                               ~ flagged e
  | None => forall e, e ∈ leaderboard s -> ~ flagged e
  end
  /\ (forall load bonus,
        selectCurrentUserRank (refreshDashboard load bonus s)
        = selectCurrentUserRank s)
  /\ LeaderboardEntry.userId <$> selectCurrentUserRank
                                   (fetchDashboardData Fulfilled s)
     = Some "user_001".
Proof.
  intros flagged. split; [|split].
  - unfold selectCurrentUserRank.
    pose proof (find_first
      (fun entry => bool_decide (entry.(LeaderboardEntry.isCurrentUser) = Some true))
      (leaderboard s)) as H.
    destruct (find _ _) as [entry|].
    + destruct H as (i & Hi & Hx & Hbefore). exists i.
      split; [done|]. split; [by apply bool_decide_eq_true in Hx|].
      intros j e Hj He. unfold flagged.
      by apply (proj1 (bool_decide_eq_false _)), (Hbefore j).
    + intros e He. unfold flagged.
      by apply (proj1 (bool_decide_eq_false _)), H.
  - intros [|reason] bonus; by destruct s.
  - by destruct s.
Qed.

(** ** Components *)

Lemma Qccompare_antisym (x y : Qc) : (y ?= x)%Qc = CompOpp (x ?= y)%Qc.
Proof. unfold Qccompare. by rewrite <- Qcompare_antisym. Qed.

(** [Math.min(Math.max(x, 0), 100)], with [NaN] replaced by [0], lies
    between 0 and 100. *)
Lemma clamp_percent_range (x : number) :
  let calculated := Js.min (Js.max x 0%Z) 100%Z in
  let shown := match calculated with Js.NaN => Js.of_Z 0 | _ => calculated end in
  Js.leb 0%Z shown = true /\ Js.leb shown 100%Z = true.
Proof.
  destruct x as [q| | |]; try (by vm_compute).
  unfold Js.max, Js.compare, Js.of_Z.
  destruct (q ?= Qc_of_Z 0)%Qc eqn:E0; try (by vm_compute).
  - unfold Js.min, Js.compare.
    destruct (q ?= Qc_of_Z 100)%Qc eqn:E1; try (by vm_compute);
      unfold Js.leb, Js.compare; rewrite E1, (Qccompare_antisym q), E0; done.
  - unfold Js.min, Js.compare.
    destruct (q ?= Qc_of_Z 100)%Qc eqn:E1; try (by vm_compute);
      unfold Js.leb, Js.compare; rewrite E1, (Qccompare_antisym q), E0; done.
Qed.

(** X19.  The percentage that [ProgressBar] computes from [value] and
    [maxValue] is a number from 0 to 100 for every pair of numbers: it is
    never negative, never above 100 and never [NaN], also when [maxValue]
    is 0 or when an argument is [NaN] or infinite. *)
Theorem X19_progress_bar_in_range (value maxValue : number) :
  Js.leb 0%Z (ProgressBar.percentage value maxValue) = true
  /\ Js.leb (ProgressBar.percentage value maxValue) 100%Z = true
  /\ ProgressBar.percentage value maxValue <> Js.NaN
  /\ ProgressBar.percentage 0%Z 0%Z = Js.of_Z 0.
Proof.
  pose proof (clamp_percent_range (Js.mul (Js.div value maxValue) 100%Z))
    as [H0 H100].
  unfold ProgressBar.percentage. split; [done|]. split; [done|]. split.
  - intros E. simpl in H0. rewrite E in H0. discriminate.
  - by vm_compute.
Qed.

Lemma Q_ratio_compare (a b : Q) :
  (0 < b)%Q -> (a * / b * 100 ?= 100)%Q = (a ?= b)%Q.
Proof.
  intros Hb.
  assert (Hb0 : ~ (b == 0)%Q) by (intros E; rewrite E in Hb; by apply Qlt_irrefl in Hb).
  assert (Hinv : (0 < / b)%Q) by by apply Qinv_lt_0_compat.
  assert (E100 : (b * / b * 100 == 100)%Q) by (field; done).
  destruct (Qcompare_spec a b) as [Heq|Hlt|Hgt].
  - apply Qeq_alt. by rewrite Heq.
  - apply Qlt_alt.
    eapply Qlt_le_trans; [|apply Qle_lteq; right; exact E100].
    apply Qmult_lt_compat_r; [done|]. by apply Qmult_lt_compat_r.
  - apply Qgt_alt.
    eapply Qle_lt_trans; [apply Qle_lteq; right; symmetry; exact E100|].
    apply Qmult_lt_compat_r; [done|]. by apply Qmult_lt_compat_r.
Qed.

Lemma Qc_ratio_compare (a b : Qc) :
  (0 < b)%Qc -> (a / b * Qc_of_Z 100 ?= Qc_of_Z 100)%Qc = (a ?= b)%Qc.
Proof.
  intros Hb. unfold Qccompare. simpl. rewrite !Qred_correct.
  by apply Q_ratio_compare.
Qed.

(** X20.  For a quest whose target is finite and positive, the "complete"
    look of its card agrees with the status rule of the store: after
    [updateQuestProgress(questId, progress)] the stored percentage is at
    least 100 exactly when [progress >= target], and then the status is
    [completed]. *)
Theorem X20_card_complete_iff_target_reached (questId : string)
    (progress : number) (quest : DashboardQuest.t) (b : Qc) :
  quest.(DashboardQuest.id) = questId ->
  quest.(DashboardQuest.progress).(QuestProgress.target) = Js.Fin b ->
  (0 < b)%Qc ->
  let quest' := updateQuest questId progress quest in
  QuestCard.isComplete quest' = Js.geb progress (Js.Fin b)
  /\ (QuestCard.isComplete quest' = true ->
      quest'.(DashboardQuest.status) = completed).
Proof.
  intros Hid Htarget Hb quest'. subst quest'.
  rewrite (updateQuest_target _ _ _ Hid).
  unfold QuestCard.isComplete, withProgress. simpl. rewrite Htarget.
  assert (E : Js.geb (Js.min (Js.mul (Js.div progress (Js.Fin b)) 100%Z) 100%Z)
                100%Z = Js.geb progress (Js.Fin b)).
  { destruct progress as [a| | |]; simpl.
    - destruct (decide (b = 0)%Qc) as [->|_]; [by destruct (Qclt_not_eq _ _ Hb)|].
      unfold Js.min, Js.geb, Js.compare, Js.mul, Js.of_Z.
      rewrite <- (Qc_ratio_compare a b Hb).
      destruct (a / b * Qc_of_Z 100 ?= Qc_of_Z 100)%Qc eqn:E; try rewrite E; done.
    - destruct (decide (b = 0)%Qc) as [->|_]; [by destruct (Qclt_not_eq _ _ Hb)|].
      by rewrite (Qc_pos_compare _ Hb).
    - destruct (decide (b = 0)%Qc) as [->|_]; [by destruct (Qclt_not_eq _ _ Hb)|].
      by rewrite (Qc_pos_compare _ Hb).
    - done. }
  rewrite E. split; [done|]. by intros ->.
Qed.

Lemma X20_card_complete_iff_target_reached_witness :
  (lockedQuest.(DashboardQuest.id) = "quest_006"
   /\ lockedQuest.(DashboardQuest.progress).(QuestProgress.target)
      = Js.Fin (Qc_of_Z 5)
   /\ (0 < Qc_of_Z 5)%Qc)
  /\ QuestCard.isComplete (updateQuest "quest_006" 4%Z lockedQuest)
     = Js.geb 4%Z (Js.Fin (Qc_of_Z 5)).
Proof.
  assert (Hb : (0 < Qc_of_Z 5)%Qc) by reflexivity.
  split; [by repeat split|].
  exact (proj1 (X20_card_complete_iff_target_reached "quest_006" 4%Z lockedQuest
                  (Qc_of_Z 5) eq_refl eq_refl Hb)).
Defined.

Lemma Qc_of_Z_mult (x y : Z) : (Qc_of_Z x * Qc_of_Z y)%Qc = Qc_of_Z (x * y).
Proof.
  apply Qc_is_canon. unfold Qcmult, Qc_of_Z. simpl.
  rewrite Qred_correct. unfold Qmult, Qeq. simpl. lia.
Qed.

Lemma sub_of_Z (x y : Z) : Js_sub (Js.of_Z x) (Js.of_Z y) = Js.of_Z (x - y).
Proof.
  unfold Js_sub, Js.mul, Js.of_Z. rewrite Qc_of_Z_mult.
  change (Js.add (Js.of_Z x) (Js.of_Z (-1 * y)) = Js.of_Z (x - y)).
  rewrite add_of_Z. f_equal; lia.
Qed.

(** X21.  For a [maxDisplay] that is an integer [n >= 0],
    [ActiveQuestsList] shows the first [n] quests in store order; there
    are more exactly when the list is longer than [n], and then the count
    it announces, [quests.length - maxDisplay], is the number of quests it
    hides; when there are no more it shows every quest. *)
Theorem X21_quest_list_split (quests : list DashboardQuest.t) (n : Z) :
  (0 <= n)%Z ->
  let shown := ActiveQuestsList.displayedQuests quests (Js.of_Z n) in
  let hidden := drop (Z.to_nat n) quests in
  shown = take (Z.to_nat n) quests
  /\ quests = (shown ++ hidden)%list
  /\ ActiveQuestsList.hasMoreQuests quests (Js.of_Z n)
     = (n <? Z.of_nat (length quests))%Z
  /\ ActiveQuestsList.remainingCount quests (Js.of_Z n)
     = Js.of_Z (Z.of_nat (length quests) - n)
  /\ (ActiveQuestsList.hasMoreQuests quests (Js.of_Z n) = true ->
      Z.of_nat (length shown) = n
      /\ Z.of_nat (length hidden) = (Z.of_nat (length quests) - n)%Z
      /\ hidden <> [])
  /\ (ActiveQuestsList.hasMoreQuests quests (Js.of_Z n) = false ->
      shown = quests).
Proof.
  intros Hn shown hidden. subst shown hidden.
  unfold ActiveQuestsList.displayedQuests, ActiveQuestsList.hasMoreQuests,
    ActiveQuestsList.remainingCount, JsArray.length_number.
  rewrite slice0_nonneg, gtb_of_Z, sub_of_Z by done.
  split; [done|]. split; [by rewrite take_drop|]. split; [done|].
  split; [done|]. split.
  - intros Hmore. apply Z.ltb_lt in Hmore.
    rewrite length_take, length_drop. repeat split; [lia..|].
    intros E. apply (f_equal length) in E. rewrite length_drop in E.
    simpl in E. lia.
  - intros Hmore. apply Z.ltb_ge in Hmore. apply take_ge. lia.
Qed.

Lemma X21_quest_list_split_witness :
  (0 <= 4)%Z
  /\ ActiveQuestsList.hasMoreQuests MockData.mockActiveQuests 4%Z = true
  /\ ActiveQuestsList.remainingCount MockData.mockActiveQuests 4%Z
     = Js.of_Z (5 - 4).
Proof.
  assert (Hn : (0 <= 4)%Z) by lia.
  split; [exact Hn|]. split; [reflexivity|].
  exact (proj1 (proj2 (proj2 (proj2
           (X21_quest_list_split MockData.mockActiveQuests 4 Hn))))).
Defined.

(** ** The page *)

Lemma render_with_user (s : DashboardState) (u : DashboardUser.t) :
  user s = Some u ->
  DashboardPage.render s
  = DashboardPage.Dashboard (Some u)
      (ActiveQuestsList.displayedQuests (activeQuests s) 4%Z)
      (DashboardPage.UpcomingClassesSection (upcomingClasses s))
      (weeklyStats s) (isRefreshing s).
Proof.
  intros Hu. unfold DashboardPage.render. rewrite Hu. simpl.
  by rewrite !andb_false_r.
Qed.

(** X22.  What the page shows after a fetch that failed depends on
    whether a user was loaded before.  With a user in the store it keeps
    showing the dashboard with the data it had: no error screen and no
    skeleton.  With no user it shows the error screen with the message,
    unless the message is the empty string: then it shows neither the
    error nor the skeleton but a dashboard without a user header. *)
Theorem X22_page_after_failed_fetch (s : DashboardState) (reason : thrown) :
  let message := errorMessage reason "Failed to fetch dashboard data" in
  let s' := fetchDashboardData (Rejected reason) s in
  DashboardPage.render s'
  = match user s with
    | Some u =>
        DashboardPage.Dashboard (Some u)
          (ActiveQuestsList.displayedQuests (activeQuests s) 4%Z)
          (DashboardPage.UpcomingClassesSection (upcomingClasses s))
          (weeklyStats s) (isRefreshing s)
    | None =>
        if String.eqb message "" then
          DashboardPage.Dashboard None
            (ActiveQuestsList.displayedQuests (activeQuests s) 4%Z)
            (DashboardPage.UpcomingClassesSection (upcomingClasses s))
            (weeklyStats s) (isRefreshing s)
        else DashboardPage.ErrorScreen message
    end.
Proof.
  intros message s'. subst s'.
  destruct s as [u q a c l b w ld rf er f sc al px pc].
  destruct u as [u|].
  - by rewrite (render_with_user _ u).
  - unfold DashboardPage.render, fetchDashboardData, fetchDashboardData_outcome.
    simpl. fold message. by destruct (String.eqb message "").
Qed.

(** X23.  The "Try Again" button of the error screen calls
    [refreshDashboard()], not [fetchDashboardData()].  On a new store
    whose first fetch was rejected, a retry that succeeds clears the
    error and shows the dashboard with the user, the quests and the
    schedule, but [leaderboard] and [featuredBadges] stay empty and
    [weeklyStats] stays [null]: the weekly section is not shown and
    [selectCurrentUserRank] finds nothing. *)
Theorem X23_retry_is_a_refresh (reason : thrown) (bonus : number) :
  let failed := fetchDashboardData (Rejected reason) initialState in
  let retried := refreshDashboard Fulfilled bonus failed in
  DashboardPage.handleRefresh bonus = CallRefresh bonus
  /\ error retried = None
  /\ DashboardPage.render retried
     = DashboardPage.Dashboard (Some (refreshedUser bonus))
         (take 4 MockData.mockActiveQuests)
         (Some (take 3 MockData.mockUpcomingClasses))
         None false
  /\ leaderboard retried = []
  /\ featuredBadges retried = []
  /\ weeklyStats retried = None
  /\ selectCurrentUserRank retried = None.
Proof. destruct reason; repeat split. Qed.

(** X24.  First paint.  The page calls [fetchDashboardData()] when it
    mounts on a new store: it shows the skeleton for the 800 ms of the
    load, and from then on the dashboard with the user header, the first
    four quests, the first three classes and the weekly statistics. *)
Theorem X24_first_paint (t : Z) :
  (0 <= t)%Z ->
  DashboardPage.render
    (store (run [DashboardPage.mount; Elapse t] (idle initialState)))
  = if (t <? 800)%Z then DashboardPage.SkeletonScreen
    else DashboardPage.Dashboard (Some MockData.mockUser)
           (take 4 MockData.mockActiveQuests)
           (Some (take 3 MockData.mockUpcomingClasses))
           (Some MockData.mockWeeklyStats) false.
Proof.
  intros Ht. unfold DashboardPage.mount, run, idle.
  destruct (Z.ltb_spec t 800); run_loop; reflexivity.
Qed.

Lemma X24_first_paint_witness :
  (0 <= 800)%Z
  /\ DashboardPage.render
       (store (run [DashboardPage.mount; Elapse 800] (idle initialState)))
     = DashboardPage.Dashboard (Some MockData.mockUser)
         (take 4 MockData.mockActiveQuests)
         (Some (take 3 MockData.mockUpcomingClasses))
         (Some MockData.mockWeeklyStats) false.
Proof.
  assert (Ht : (0 <= 800)%Z) by lia.
  split; [exact Ht|].
  exact (X24_first_paint 800 Ht).
Defined.

(** X25.  A refresh never blanks the page: on a store that holds a user,
    from the call of [refreshDashboard()] until it settles 500 ms later the
    page shows the dashboard with the data it had, with the refresh button
    disabled; it shows neither the skeleton nor an error screen. *)
Theorem X25_refresh_keeps_page (s : DashboardState) (u : DashboardUser.t)
    (bonus : number) (t : Z) :
  user s = Some u ->
  (0 <= t < 500)%Z ->
  DashboardPage.render
    (store (run [DashboardPage.handleRefresh bonus; Elapse t] (idle s)))
  = DashboardPage.Dashboard (Some u)
      (ActiveQuestsList.displayedQuests (activeQuests s) 4%Z)
      (DashboardPage.UpcomingClassesSection (upcomingClasses s))
      (weeklyStats s) true.
Proof.
  intros Hu Ht. unfold DashboardPage.handleRefresh, run, idle. run_loop.
  rewrite (render_with_user _ u) by (by destruct s).
  by destruct s.
Qed.

Lemma X25_refresh_keeps_page_witness :
  (user loaded = Some MockData.mockUser /\ (0 <= 499 < 500)%Z)
  /\ DashboardPage.render
       (store (run [DashboardPage.handleRefresh 7%Z; Elapse 499] (idle loaded)))
     = DashboardPage.Dashboard (Some MockData.mockUser)
         (ActiveQuestsList.displayedQuests (activeQuests loaded) 4%Z)
         (DashboardPage.UpcomingClassesSection (upcomingClasses loaded))
         (weeklyStats loaded) true.
Proof.
  assert (Ht : (0 <= 499 < 500)%Z) by lia.
  split; [split; [reflexivity|exact Ht]|].
  exact (X25_refresh_keeps_page loaded MockData.mockUser 7%Z 499 eq_refl Ht).
Defined.

(** ** More on actions and loads *)

(** X26.  Actions that write different fields commute: a progress update
    and a new activity, the two pending counters, a filter change and the
    completed-quests toggle give the same state in either order. *)
Theorem X26_independent_actions_commute (s : DashboardState) (questId : string)
    (progress : number) (activity : DashboardActivity.t) (a b : number)
    (p : DashboardFilters) :
  updateQuestProgress questId progress (addActivity activity s)
  = addActivity activity (updateQuestProgress questId progress s)
  /\ addPendingXP a (addPendingCoins b s) = addPendingCoins b (addPendingXP a s)
  /\ setFilters p (toggleShowCompletedQuests s)
     = toggleShowCompletedQuests (setFilters p s)
  /\ updateQuestProgress questId progress (addPendingXP a s)
     = addPendingXP a (updateQuestProgress questId progress s).
Proof. destruct s. repeat split. Qed.

(** X27.  When [refreshDashboard()] is called 300 ms or more after
    [fetchDashboardData()], the loads settle in the order of the calls:
    once the refresh has settled nothing is in flight and the state holds
    the refresh's user over the fetch's leaderboard, badges and weekly
    statistics. *)
Theorem X27_refresh_after_fetch (s : DashboardState) (d : Z) (bonus : number) :
  (300 <= d)%Z ->
  let L := run [CallFetch; Elapse d; CallRefresh bonus; Elapse 500] (idle s) in
  timers L = []
  /\ store L
     = mkState (Some (refreshedUser bonus)) MockData.mockActiveQuests
         MockData.mockActivities MockData.mockUpcomingClasses
         MockData.mockLeaderboard MockData.mockFeaturedBadges
         (Some MockData.mockWeeklyStats) false false None
         (filters s) (showCompletedQuests s) (activityLimit s)
         (pendingXPGain s) (pendingCoinsGain s).
Proof.
  intros Hd L. subst L. unfold run, idle.
  destruct (Z.lt_ge_cases d 800); run_loop; by destruct s.
Qed.

Lemma X27_refresh_after_fetch_witness :
  (300 <= 300)%Z
  /\ user (store (run [CallFetch; Elapse 300; CallRefresh 7%Z; Elapse 500]
                    (idle initialState)))
     = Some (refreshedUser 7%Z).
Proof.
  assert (Hd : (300 <= 300)%Z) by lia.
  split; [exact Hd|].
  exact (f_equal user (proj2 (X27_refresh_after_fetch initialState 300 7%Z Hd))).
Defined.

(** ** [formatRelativeTime] *)

(** X28.  [formatRelativeTime] says ['Just now'] for every timestamp less
    than a minute old, and for every timestamp in the future.  From one
    minute to one hour it counts whole minutes, from 1 to 59; from one hour
    to one day whole hours, from 1 to 23; from one day to seven days whole
    days, from 1 to 6.  A timestamp of seven days or more, or one that does
    not parse, is left to [toLocaleDateString]. *)
Theorem X28_relative_time_ranges (toLocaleDateString : option Z -> string)
    (now time : Z) :
  let diff := (now - time)%Z in
  let text := formatRelativeTime toLocaleDateString now (Some time) in
  ((diff < 60000)%Z -> text = "Just now")
  /\ ((60000 <= diff < 3600000)%Z ->
      text = pretty (diff / 60000)%Z +:+ "m ago"
      /\ (1 <= diff / 60000 <= 59)%Z)
  /\ ((3600000 <= diff < 86400000)%Z ->
      text = pretty (diff / 3600000)%Z +:+ "h ago"
      /\ (1 <= diff / 3600000 <= 23)%Z)
  /\ ((86400000 <= diff < 604800000)%Z ->
      text = pretty (diff / 86400000)%Z +:+ "d ago"
      /\ (1 <= diff / 86400000 <= 6)%Z)
  /\ ((604800000 <= diff)%Z -> text = toLocaleDateString (Some time))
  /\ formatRelativeTime toLocaleDateString now None = toLocaleDateString None.
Proof.
  intros diff text. subst text. unfold formatRelativeTime. fold diff.
  assert (Eh : (diff / 60000 / 60 = diff / 3600000)%Z)
    by (rewrite Z.div_div by lia; done).
  assert (Ed : (diff / 60000 / 60 / 24 = diff / 86400000)%Z)
    by (rewrite !Z.div_div by lia; done).
  rewrite Ed, Eh.
  repeat split.
  - intros H. assert ((diff / 60000 < 1)%Z) by (apply Z.div_lt_upper_bound; lia).
    by rewrite (proj2 (Z.ltb_lt _ _)).
  - assert ((1 <= diff / 60000)%Z) by (apply Z.div_le_lower_bound; lia).
    assert ((diff / 60000 < 60)%Z) by (apply Z.div_lt_upper_bound; lia).
    rewrite (proj2 (Z.ltb_ge _ 1)) by done.
    by rewrite (proj2 (Z.ltb_lt _ 60)).
  - apply Z.div_le_lower_bound; lia.
  - assert ((diff / 60000 < 60)%Z) by (apply Z.div_lt_upper_bound; lia). lia.
  - assert ((60 <= diff / 60000)%Z) by (apply Z.div_le_lower_bound; lia).
    assert ((diff / 3600000 < 24)%Z) by (apply Z.div_lt_upper_bound; lia).
    rewrite (proj2 (Z.ltb_ge _ 1)), (proj2 (Z.ltb_ge _ 60)) by lia.
    by rewrite (proj2 (Z.ltb_lt _ 24)).
  - apply Z.div_le_lower_bound; lia.
  - assert ((diff / 3600000 < 24)%Z) by (apply Z.div_lt_upper_bound; lia). lia.
  - assert ((60 <= diff / 60000)%Z) by (apply Z.div_le_lower_bound; lia).
    assert ((24 <= diff / 3600000)%Z) by (apply Z.div_le_lower_bound; lia).
    assert ((diff / 86400000 < 7)%Z) by (apply Z.div_lt_upper_bound; lia).
    rewrite (proj2 (Z.ltb_ge _ 1)), (proj2 (Z.ltb_ge _ 60)),
      (proj2 (Z.ltb_ge _ 24)) by lia.
    by rewrite (proj2 (Z.ltb_lt _ 7)).
  - apply Z.div_le_lower_bound; lia.
  - assert ((diff / 86400000 < 7)%Z) by (apply Z.div_lt_upper_bound; lia). lia.
  - intros H.
    assert ((60 <= diff / 60000)%Z) by (apply Z.div_le_lower_bound; lia).
    assert ((24 <= diff / 3600000)%Z) by (apply Z.div_le_lower_bound; lia).
    assert ((7 <= diff / 86400000)%Z) by (apply Z.div_le_lower_bound; lia).
    by rewrite (proj2 (Z.ltb_ge _ 1)), (proj2 (Z.ltb_ge _ 60)),
      (proj2 (Z.ltb_ge _ 24)), (proj2 (Z.ltb_ge _ 7)) by lia.
Qed.
